(** * SnapBack: the session manager of [session_manager.py]

    A shallow embedding of [SessionManager]: the snapshot store
    ([save_session], [load_session], [list_sessions], [delete_session],
    [remove_path_from_session], [add_path_to_session]) and the restore
    engine ([restore_session], [_find_window_by_path], [_apply_geometry]).

    Modelling conventions.
    - A session file holds the JSON object that [json.dump] wrote; since
      [json.load] gives back the same dictionaries and lists, a file is
      modelled by its parsed content ([Json s]) or by [Unparseable] bytes.
    - The sessions directory is a finite map from file names to files; a
      [filepath] is the name of the file inside that directory.
    - Python [str] is [string]; [str.isalnum] and [str.isspace] are
      built-ins of the interpreter and are taken as parameters
      ([CharClasses]).
    - [time.time()] readings and time-outs are integers (clock ticks).
    - The operating system (shell window enumeration, process launch,
      window placement, clock) is an oracle [World], indexed by the number
      of calls made so far; calls are recorded in a chronological trace. *)

From Stdlib Require Import ZArith Lia Ascii Sorted.
From stdpp Require Import gmap strings list fin_maps.

#[local] Set Warnings "-clear-no-such-hyp".

Local Open Scope string_scope.
Local Open Scope list_scope.
Local Open Scope nat_scope.

(** ** Data model *)

(** One element of ["windows"] in a session file:
    [{"path": p, "rect": [left, top, width, height], "show_cmd": n}],
    with the three keys present as [save_session] and
    [add_path_to_session] write them. *)
Record Entry := {
  e_path : string;
  e_rect : list Z;
  e_show_cmd : Z
}.

(** The JSON object of a session file.  Every key is read with
    [dict.get] and a default, so every key may be absent. *)
Record Session := {
  s_name : option string;
  s_saved_at : option string;
  s_windows : option (list Entry)
}.

Inductive FileContent :=
| Json (s : Session)
| Unparseable.

(** A dictionary returned by [get_all_explorer_windows]. *)
Record Window := {
  w_path : string;
  w_hwnd : Z;
  w_rect : list Z;
  w_show_cmd : Z
}.

(** One COM object of [shell.Windows()].  A query that raises, or a
    document without a [Folder], is [None]. *)
Record ShellWindow := {
  sw_folder_path : option string;
  sw_hwnd : option Z;
  sw_placement : option (Z * (Z * Z * Z * Z));
  sw_window_rect : option (Z * Z * Z * Z)
}.

(** The three renderings of [datetime.now()] that [save_session] uses. *)
Record Timestamp := {
  strftime_display : string;   (* '%b %d, %Y at %I:%M:%S %p' *)
  isoformat : string;
  strftime_file : string       (* '%Y%m%d_%H%M%S' *)
}.

(** A dictionary returned by [list_sessions]. *)
Record Summary := {
  sm_filepath : string;
  sm_name : string;
  sm_saved_at : string;
  window_count : nat;
  tab_count : nat
}.

Inductive Exn :=
| FileNotFoundError
| JSONDecodeError
| ValueError.

(** The outcome of a call: a value, a raised exception, or a loop that
    was cut off by the fuel of the model. *)
Inductive Outcome (A : Type) :=
| Ok (a : A)
| Raise (e : Exn)
| OutOfFuel.
Arguments Ok {A} a.
Arguments Raise {A} e.
Arguments OutOfFuel {A}.

Definition bind {A B} (m : Outcome A) (k : A -> Outcome B) : Outcome B :=
  match m with
  | Ok a => k a
  | Raise e => Raise e
  | OutOfFuel => OutOfFuel
  end.

Notation "x <- m ;; k" := (bind m (fun x => k))
  (at level 100, m at next level, right associativity).

(** win32con constants. *)
Definition SW_SHOWNORMAL : Z := 1%Z.
Definition SW_SHOWMINIMIZED : Z := 2%Z.
Definition SW_SHOWMAXIMIZED : Z := 3%Z.
Definition SW_MAXIMIZE : Z := 3%Z.
Definition SW_MINIMIZE : Z := 6%Z.
Definition SW_RESTORE : Z := 9%Z.

(** ** Character classes and name sanitising *)

Class CharClasses := {
  isalnum : ascii -> bool;
  isspace : ascii -> bool
}.

(** The classes on the ASCII range. *)
Definition ascii_isalnum (c : ascii) : bool :=
  let n := nat_of_ascii c in
  ((48 <=? n) && (n <=? 57)) || ((65 <=? n) && (n <=? 90))
  || ((97 <=? n) && (n <=? 122)).

Definition ascii_isspace (c : ascii) : bool :=
  let n := nat_of_ascii c in
  ((9 <=? n) && (n <=? 13)) || ((28 <=? n) && (n <=? 32)).

Definition ascii_classes : CharClasses :=
  {| isalnum := ascii_isalnum; isspace := ascii_isspace |}.

Fixpoint lstrip (sp : ascii -> bool) (l : list ascii) : list ascii :=
  match l with
  | [] => []
  | c :: l' => if sp c then lstrip sp l' else l
  end.

(** [str.strip()]: drop leading and trailing white space. *)
Definition strip `{CharClasses} (s : string) : string :=
  String.string_of_list_ascii
    (rev (lstrip isspace (rev (lstrip isspace (String.list_ascii_of_string s))))).

Definition ascii_in (c : ascii) (cs : list ascii) : bool :=
  bool_decide (c ∈ cs).

(** [c.isalnum() or c in (' ', '-', '_')] *)
Definition allowed `{CharClasses} (c : ascii) : bool :=
  isalnum c || ascii_in c [" "; "-"; "_"]%char.

(** ["".join(c for c in name if ...)] *)
Definition allowed_chars `{CharClasses} (name : string) : string :=
  String.string_of_list_ascii
    (filter (fun c => allowed c = true) (String.list_ascii_of_string name)).

Definition safe_name `{CharClasses} (name : string) : string :=
  strip (allowed_chars name).

(** Truth value of an optional string argument: [None] and [""] are false. *)
Definition truthy (name : option string) : bool :=
  match name with
  | Some n => negb (String.eqb n "")
  | None => false
  end.

(** ** Window Enumerator *)

(** One iteration of the loop of [get_all_explorer_windows]: the window
    is skipped when a query raises, and [GetWindowRect] is the fallback of
    [GetWindowPlacement]. *)
Definition window_of (w : ShellWindow) : option Window :=
  match sw_folder_path w, sw_hwnd w with
  | Some path, Some hwnd =>
      match sw_placement w with
      | Some (show_cmd, (left_, top, right_, bottom)) =>
          Some {| w_path := path; w_hwnd := hwnd;
                  w_rect := [left_; top; right_ - left_; bottom - top]%Z;
                  w_show_cmd := show_cmd |}
      | None =>
          match sw_window_rect w with
          | Some (left_, top, right_, bottom) =>
              Some {| w_path := path; w_hwnd := hwnd;
                      w_rect := [left_; top; right_ - left_; bottom - top]%Z;
                      w_show_cmd := SW_SHOWNORMAL |}
          | None => None
          end
      end
  | _, _ => None
  end.

Definition get_all_explorer_windows (shell : list ShellWindow) : list Window :=
  omap window_of shell.

(** ** Snapshot Store *)

Definition entry_of (w : Window) : Entry :=
  {| e_path := w_path w; e_rect := w_rect w; e_show_cmd := w_show_cmd w |}.

(** The body of the deduplication loop of [save_session], on the pair
    [(seen, session_entries)]. *)
Definition dedup_step (acc : gset string * list Entry) (w : Window)
  : gset string * list Entry :=
  let p := w_path w in
  if bool_decide (p ∈ acc.1) then acc
  else ({[p]} ∪ acc.1, acc.2 ++ [entry_of w]).

Definition dedup_by_path (windows : list Window) : list Entry :=
  (foldl dedup_step (∅, []) windows).2.

Definition payload_of (name : option string) (timestamp : Timestamp)
    (session_entries : list Entry) : Session :=
  {| s_name := Some (match name with
                     | Some n => if truthy name then n
                                 else "Session " +:+ strftime_display timestamp
                     | None => "Session " +:+ strftime_display timestamp
                     end);
     s_saved_at := Some (isoformat timestamp);
     s_windows := Some session_entries |}.

Definition filename_of `{CharClasses} (name : option string)
    (timestamp : Timestamp) : string :=
  match name with
  | Some n => if truthy name then safe_name n +:+ ".json"
              else "session_" +:+ strftime_file timestamp +:+ ".json"
  | None => "session_" +:+ strftime_file timestamp +:+ ".json"
  end.

(** [save_session]: [shell] is what [shell.Windows()] yields and
    [timestamp] what [datetime.now()] returns during the call; the result
    is the directory after the write and the returned file path. *)
Definition save_session `{CharClasses} (fs : gmap string FileContent)
    (shell : list ShellWindow) (timestamp : Timestamp) (name : option string)
  : gmap string FileContent * string :=
  let windows := get_all_explorer_windows shell in
  let session_entries := dedup_by_path windows in
  let payload := payload_of name timestamp session_entries in
  let filepath := filename_of name timestamp in
  (<[filepath := Json payload]> fs, filepath).

Definition load_session (fs : gmap string FileContent) (filepath : string)
  : Outcome Session :=
  match fs !! filepath with
  | None => Raise FileNotFoundError
  | Some Unparseable => Raise JSONDecodeError
  | Some (Json data) => Ok data
  end.

Definition delete_session (fs : gmap string FileContent) (filepath : string)
  : gmap string FileContent :=
  if bool_decide (is_Some (fs !! filepath)) then delete filepath fs else fs.

(** [data.get("windows", [])] *)
Definition get_windows (data : Session) : list Entry :=
  default [] (s_windows data).

(** [session_data["windows"] = ws] *)
Definition set_windows (data : Session) (ws : list Entry) : Session :=
  {| s_name := s_name data; s_saved_at := s_saved_at data;
     s_windows := Some ws |}.

(** [filename.endswith(suffix)] *)
Definition endswith (filename suffix : string) : bool :=
  let n := String.length filename in
  let m := String.length suffix in
  (m <=? n) && String.eqb (String.substring (n - m) m filename) suffix.

Definition summary_of (filepath : string) (data : Session) : Summary :=
  let windows := get_windows data in
  {| sm_filepath := filepath;
     sm_name := default filepath (s_name data);
     sm_saved_at := default "" (s_saved_at data);
     window_count := size (list_to_set (e_path <$> windows) : gset string);
     tab_count := length windows |}.

(** [list.sort(key=saved_at, reverse=True)] is stable: records with equal
    keys keep their order. *)
Fixpoint insert_desc (x : Summary) (l : list Summary) : list Summary :=
  match l with
  | [] => [x]
  | y :: l' =>
      if String.leb (sm_saved_at y) (sm_saved_at x) then x :: l
      else y :: insert_desc x l'
  end.

Definition sort_desc (l : list Summary) : list Summary :=
  foldr insert_desc [] l.

(** [os.listdir]: the names in the directory, in the order of the map.
    The directory itself exists ([_ensure_sessions_dir]). *)
Definition os_listdir (fs : gmap string FileContent) : list string :=
  (map_to_list fs).*1.

(** The body of the loop of [list_sessions] for one file name: [None]
    when the name is passed over ([continue]). *)
Definition list_one (fs : gmap string FileContent) (filename : string)
  : option Summary :=
  if endswith filename ".json" then
    match load_session fs filename with
    | Ok data => Some (summary_of filename data)
    | _ => None
    end
  else None.

Definition list_sessions (fs : gmap string FileContent) : list Summary :=
  sort_desc (omap (list_one fs) (os_listdir fs)).

Definition remove_path_from_session (fs : gmap string FileContent)
    (filepath path_to_remove : string)
  : Outcome (gmap string FileContent * bool) :=
  session_data <- load_session fs filepath ;;
  let windows := get_windows session_data in
  let updated_windows := filter (fun w => e_path w ≠ path_to_remove) windows in
  match updated_windows with
  | [] => Ok (delete_session fs filepath, false)
  | _ :: _ =>
      Ok (<[filepath := Json (set_windows session_data updated_windows)]> fs,
          true)
  end.

Definition add_path_to_session (fs : gmap string FileContent)
    (filepath new_path : string) (rect : option (list Z)) (show_cmd : option Z)
  : Outcome (gmap string FileContent * bool) :=
  session_data <- load_session fs filepath ;;
  let windows := get_windows session_data in
  if existsb (fun window => String.eqb (e_path window) new_path) windows
  then Ok (fs, false)
  else
    let rect := default [100; 100; 1000; 600]%Z rect in
    let show_cmd := default 1%Z show_cmd in
    let new_window :=
      {| e_path := new_path; e_rect := rect; e_show_cmd := show_cmd |} in
    let windows := windows ++ [new_window] in
    Ok (<[filepath := Json (set_windows session_data windows)]> fs, true).

(** ** Restore Engine *)

(** The two call sites of [_find_window_by_path] in [restore_session]. *)
Inductive Site := AlreadyOpen | Polling.

(** What a restore pass asks of the operating system, in the order of
    the calls. *)
Inductive Event :=
| EvFind (site : Site) (path : string) (found : option Z)
| EvLaunch (path : string) (ok : bool)
| EvTime (now : Z)
| EvSleep (poll_interval : Z)
| EvGeometry (hwnd : Z) (rect : list Z) (cmd : Z) (ok : bool).

(** The operating system during one pass: the answer to the [k]-th call
    of each kind. *)
Record World := {
  shell_windows : nat -> list ShellWindow;   (* Dispatch("Shell.Application").Windows() *)
  popen : nat -> string -> bool;             (* subprocess.Popen(["explorer", path]) does not raise *)
  time_time : nat -> Z;                      (* time.time() *)
  win32gui : nat -> Z -> list Z -> Z -> bool (* MoveWindow; ShowWindow do not raise *)
}.

Record Env := {
  enum_calls : nat;
  popen_calls : nat;
  time_calls : nat;
  gui_calls : nat;
  trace : list Event
}.

Definition env0 : Env :=
  {| enum_calls := 0; popen_calls := 0; time_calls := 0; gui_calls := 0;
     trace := [] |}.

(** The local variables of [restore_session]. *)
Record Locals := {
  used_hwnds : gset Z;
  restored : nat;
  skipped : nat;
  to_open : list (string * list Z * Z);
  to_restore : list (Z * list Z * Z)
}.

Definition locals0 : Locals :=
  {| used_hwnds := ∅; restored := 0; skipped := 0; to_open := [];
     to_restore := [] |}.

(** [skipped += 1] *)
Definition add_skipped (l : Locals) : Locals :=
  {| used_hwnds := used_hwnds l; restored := restored l;
     skipped := S (skipped l); to_open := to_open l;
     to_restore := to_restore l |}.

(** [restored += 1] *)
Definition add_restored (l : Locals) : Locals :=
  {| used_hwnds := used_hwnds l; restored := S (restored l);
     skipped := skipped l; to_open := to_open l;
     to_restore := to_restore l |}.

(** [to_restore.append((hwnd, rect, show_cmd)); used_hwnds.add(hwnd)] *)
Definition claim (hwnd : Z) (rect : list Z) (show_cmd : Z) (l : Locals)
  : Locals :=
  {| used_hwnds := {[hwnd]} ∪ used_hwnds l; restored := restored l;
     skipped := skipped l; to_open := to_open l;
     to_restore := to_restore l ++ [(hwnd, rect, show_cmd)] |}.

(** [to_open.append((path, rect, show_cmd))] *)
Definition push_open (path : string) (rect : list Z) (show_cmd : Z)
    (l : Locals) : Locals :=
  {| used_hwnds := used_hwnds l; restored := restored l;
     skipped := skipped l;
     to_open := to_open l ++ [(path, rect, show_cmd)];
     to_restore := to_restore l |}.

(** The loop of [_find_window_by_path] over one enumeration. *)
Fixpoint _find_window_by_path (shell : list ShellWindow) (path : string)
    (used_hwnds : gset Z) : option Z :=
  match shell with
  | [] => None
  | w :: shell' =>
      match sw_folder_path w, sw_hwnd w with
      | Some window_path, Some hwnd =>
          if bool_decide (window_path = path)
             && bool_decide (hwnd ∉ used_hwnds)
          then Some hwnd
          else _find_window_by_path shell' path used_hwnds
      | _, _ => _find_window_by_path shell' path used_hwnds
      end
  end.

(** A call of [self._find_window_by_path(path, used_hwnds)]. *)
Definition find_window (W : World) (site : Site) (path : string)
    (used : gset Z) (env : Env) : option Z * Env :=
  let hwnd := _find_window_by_path (shell_windows W (enum_calls env)) path used in
  (hwnd,
   {| enum_calls := S (enum_calls env); popen_calls := popen_calls env;
      time_calls := time_calls env; gui_calls := gui_calls env;
      trace := trace env ++ [EvFind site path hwnd] |}).

(** [subprocess.Popen(["explorer", path], shell=False)]: [false] when it
    raises. *)
Definition launch (W : World) (path : string) (env : Env) : bool * Env :=
  let ok := popen W (popen_calls env) path in
  (ok,
   {| enum_calls := enum_calls env; popen_calls := S (popen_calls env);
      time_calls := time_calls env; gui_calls := gui_calls env;
      trace := trace env ++ [EvLaunch path ok] |}).

Definition read_clock (W : World) (env : Env) : Z * Env :=
  let now := time_time W (time_calls env) in
  (now,
   {| enum_calls := enum_calls env; popen_calls := popen_calls env;
      time_calls := S (time_calls env); gui_calls := gui_calls env;
      trace := trace env ++ [EvTime now] |}).

(** [time.sleep(poll_interval)]: a negative interval raises
    [ValueError]. *)
Definition sleep (poll_interval : Z) (env : Env) : Outcome Env :=
  if (poll_interval <? 0)%Z then Raise ValueError
  else
    Ok {| enum_calls := enum_calls env; popen_calls := popen_calls env;
          time_calls := time_calls env; gui_calls := gui_calls env;
          trace := trace env ++ [EvSleep poll_interval] |}.

(** [_apply_geometry]: unpacking [rect] is outside the [try], so a
    [rect] that is not of length four raises [ValueError]; every branch
    moves the window and then shows it with the command of the branch. *)
Definition _apply_geometry (W : World) (hwnd : Z) (rect : list Z)
    (show_cmd : Z) (env : Env) : Outcome (bool * Env) :=
  match rect with
  | [_; _; _; _] =>
      let cmd :=
        if (show_cmd =? SW_SHOWMAXIMIZED)%Z then SW_MAXIMIZE
        else if (show_cmd =? SW_SHOWMINIMIZED)%Z || (show_cmd =? SW_MINIMIZE)%Z
             then SW_MINIMIZE
             else SW_RESTORE in
      let ok := win32gui W (gui_calls env) hwnd rect cmd in
      Ok (ok,
          {| enum_calls := enum_calls env; popen_calls := popen_calls env;
             time_calls := time_calls env; gui_calls := S (gui_calls env);
             trace := trace env ++ [EvGeometry hwnd rect cmd ok] |})
  | _ => Raise ValueError
  end.

(** The body of the first loop of [restore_session]: an entry with an
    empty path is skipped; the others are split into [to_restore] (a live
    window shows the path) and [to_open]. *)
Definition classify_step (W : World) (st : Locals * Env) (w : Entry)
  : Locals * Env :=
  let path := e_path w in
  let rect := e_rect w in
  let show_cmd := e_show_cmd w in
  if String.eqb path "" then (add_skipped st.1, st.2)
  else
    let r := find_window W AlreadyOpen path (used_hwnds st.1) st.2 in
    match r.1 with
    | Some hwnd => (claim hwnd rect show_cmd st.1, r.2)
    | None => (push_open path rect show_cmd st.1, r.2)
    end.

Definition classify (W : World) (windows : list Entry) (st : Locals * Env)
  : Locals * Env :=
  foldl (classify_step W) st windows.

(** The body of the launch loop: a failed launch adds one to [skipped]
    and leaves [to_open] as it is. *)
Definition launch_step (W : World) (st : Locals * Env)
    (t : string * list Z * Z) : Locals * Env :=
  let r := launch W t.1.1 st.2 in
  if r.1 then (st.1, r.2) else (add_skipped st.1, r.2).

Definition launch_all (W : World) (st : Locals * Env) : Locals * Env :=
  foldl (launch_step W) st (to_open st.1).

(** [for i in range(len(remaining) - 1, -1, -1)]: [poll_round W i] runs
    the iterations for the indices [i - 1] down to [0].  The index is
    always in range; outside it the model leaves the state as it is. *)
Fixpoint poll_round (W : World) (i : nat)
    (remaining : list (string * list Z * Z)) (st : Locals * Env)
  : list (string * list Z * Z) * (Locals * Env) :=
  match i with
  | 0 => (remaining, st)
  | S i' =>
      match remaining !! i' with
      | Some (path, rect, show_cmd) =>
          let r := find_window W Polling path (used_hwnds st.1) st.2 in
          match r.1 with
          | Some hwnd =>
              poll_round W i' (delete i' remaining)
                (claim hwnd rect show_cmd st.1, r.2)
          | None => poll_round W i' remaining (st.1, r.2)
          end
      | None => (remaining, st)
      end
  end.

(** [while remaining and time.time() < deadline]: the clock is read only
    when [remaining] is not empty; one unit of fuel per iteration; an
    exception of [time.sleep] leaves the loop and the function. *)
Fixpoint wait_loop (W : World) (fuel : nat) (deadline poll_interval : Z)
    (remaining : list (string * list Z * Z)) (st : Locals * Env) {struct fuel}
  : Outcome (list (string * list Z * Z) * (Locals * Env)) :=
  match remaining with
  | [] => Ok (remaining, st)
  | _ :: _ =>
      let c := read_clock W st.2 in
      if (c.1 <? deadline)%Z then
        match fuel with
        | 0 => OutOfFuel
        | S fuel' =>
            let r := poll_round W (length remaining) remaining (st.1, c.2) in
            match r.1 with
            | [] => wait_loop W fuel' deadline poll_interval r.1 r.2
            | _ :: _ =>
                match sleep poll_interval r.2.2 with
                | Ok env' =>
                    wait_loop W fuel' deadline poll_interval r.1 (r.2.1, env')
                | Raise e => Raise e
                | OutOfFuel => OutOfFuel
                end
            end
        end
      else Ok (remaining, (st.1, c.2))
  end.

(** [if to_open: ...]: the waiting phase, and one [skipped] for every
    entry left in [remaining]. *)
Definition wait_for_windows (W : World) (fuel : nat)
    (open_timeout poll_interval : Z) (st : Locals * Env)
  : Outcome (Locals * Env) :=
  match to_open st.1 with
  | [] => Ok st
  | _ :: _ =>
      let c := read_clock W st.2 in
      let deadline := (c.1 + open_timeout)%Z in
      r <- wait_loop W fuel deadline poll_interval (to_open st.1) (st.1, c.2) ;;
      Ok (foldl (fun l _ => add_skipped l) r.2.1 r.1, r.2.2)
  end.

(** The last loop: geometry for every element of [to_restore]. *)
Fixpoint apply_all (W : World) (l : list (Z * list Z * Z))
    (st : Locals * Env) : Outcome (Locals * Env) :=
  match l with
  | [] => Ok st
  | (hwnd, rect, show_cmd) :: l' =>
      r <- _apply_geometry W hwnd rect show_cmd st.2 ;;
      apply_all W l'
        (if r.1 then add_restored st.1 else add_skipped st.1, r.2)
  end.

(** [restore_session] up to the end of the waiting phase. *)
Definition match_windows (W : World) (fs : gmap string FileContent)
    (filepath : string) (open_timeout poll_interval : Z) (fuel : nat)
  : Outcome (Locals * Env) :=
  data <- load_session fs filepath ;;
  let windows := get_windows data in
  let st := classify W windows (locals0, env0) in
  let st := launch_all W st in
  wait_for_windows W fuel open_timeout poll_interval st.

(** [restore_session] with its final local variables and the trace. *)
Definition restore_run (W : World) (fs : gmap string FileContent)
    (filepath : string) (open_timeout poll_interval : Z) (fuel : nat)
  : Outcome (Locals * Env) :=
  st <- match_windows W fs filepath open_timeout poll_interval fuel ;;
  apply_all W (to_restore st.1) st.

Definition restore_session (W : World) (fs : gmap string FileContent)
    (filepath : string) (open_timeout poll_interval : Z) (fuel : nat)
  : Outcome (nat * nat) :=
  st <- restore_run W fs filepath open_timeout poll_interval fuel ;;
  Ok (restored st.1, skipped st.1).

(** The trace of a pass that returns. *)
Definition restore_trace (W : World) (fs : gmap string FileContent)
    (filepath : string) (open_timeout poll_interval : Z) (fuel : nat)
  : Outcome (list Event) :=
  st <- restore_run W fs filepath open_timeout poll_interval fuel ;;
  Ok (trace st.2).

(** ** Vocabulary of the properties *)

(** The handles of a matched set. *)
Definition hwnds (l : list (Z * list Z * Z)) : list Z := (λ m, m.1.1) <$> l.

(** [to_open] element of a snapshot entry. *)
Definition target_of (w : Entry) : string * list Z * Z :=
  (e_path w, e_rect w, e_show_cmd w).

Definition is_detect (e : Event) : bool :=
  match e with EvFind AlreadyOpen _ _ => true | _ => false end.

Definition is_launch (e : Event) : bool :=
  match e with EvLaunch _ _ => true | _ => false end.

(** The events of the waiting phase: clock readings, polling searches
    and sleeps. *)
Definition is_waiting (e : Event) : bool :=
  match e with
  | EvFind Polling _ _ | EvTime _ | EvSleep _ => true
  | _ => false
  end.

Definition is_geometry (e : Event) : bool :=
  match e with EvGeometry _ _ _ _ => true | _ => false end.

Definition is_failed_launch (e : Event) : bool :=
  match e with EvLaunch _ false => true | _ => false end.

(** The number of launches of a trace that failed. *)
Definition failed_launches (tr : list Event) : nat :=
  length (filter (λ e, is_failed_launch e = true) tr).

(** The paths for which a launch was requested, in the order of the
    requests. *)
Definition launched (tr : list Event) : list string :=
  omap (λ e, match e with EvLaunch p _ => Some p | _ => None end) tr.

(** The handle [h] was returned by a window search at position [i] of
    the trace. *)
Definition found_at (tr : list Event) (i : nat) (h : Z) : Prop :=
  ∃ site p, tr !! i = Some (EvFind site p (Some h)).

(** The claimed set is the set of the matched handles, which are
    pairwise distinct and were each returned by a search of the trace. *)
Definition coherent (st : Locals * Env) : Prop :=
  used_hwnds st.1 = list_to_set (hwnds (to_restore st.1))
  ∧ NoDup (hwnds (to_restore st.1))
  ∧ ∀ h, h ∈ hwnds (to_restore st.1) →
         ∃ i, i < length (trace st.2) ∧ found_at (trace st.2) i h.

(** No enumeration of the pass ever shows a window on one of [paths]. *)
Definition never_live (W : World) (paths : list string) : Prop :=
  ∀ k w p, w ∈ shell_windows W k → sw_folder_path w = Some p → p ∉ paths.

(** The locals [l] with [skipped] set to [n]. *)
Definition set_skipped (n : nat) (l : Locals) : Locals :=
  {| used_hwnds := used_hwnds l; restored := restored l; skipped := n;
     to_open := to_open l; to_restore := to_restore l |}.

(** [e] is a launch request with the outcome that the world gives it. *)
Definition launch_of (W : World) (e : Event) : Prop :=
  ∃ k p, e = EvLaunch p (popen W k p).

(** [e] is a geometry call on one of the handles [hs]. *)
Definition geometry_on (hs : list Z) (e : Event) : Prop :=
  ∃ h rect cmd ok, e = EvGeometry h rect cmd ok ∧ h ∈ hs.

(** Turns a [Forall] on the events of one phase into the [Forall] of a
    fact that holds for every event of that phase. *)
Ltac by_phase :=
  repeat (apply Forall_app; split);
  (eapply Forall_impl; [eassumption|]);
  let e := fresh "e" in
  intros e;
  first [ by destruct e as [[]| | | |]
        | by intros (? & ? & ->)
        | by intros (? & ? & ? & ? & -> & _) ].

(** ** Example worlds and directories *)

Definition shell_window (path : string) (hwnd : Z) : ShellWindow :=
  {| sw_folder_path := Some path; sw_hwnd := Some hwnd;
     sw_placement := Some (SW_SHOWNORMAL, (0, 0, 800, 600)%Z);
     sw_window_rect := Some (0, 0, 800, 600)%Z |}.

Definition entry (path : string) (show_cmd : Z) : Entry :=
  {| e_path := path; e_rect := [0; 0; 800; 600]%Z; e_show_cmd := show_cmd |}.

Definition session_of (windows : list Entry) : Session :=
  {| s_name := Some "Work"; s_saved_at := Some "2025-10-03T15:52:01";
     s_windows := Some windows |}.

(** No folder window is ever open; launches and geometry calls succeed;
    the [k]-th clock reading is [k]. *)
Definition quiet_world : World :=
  {| shell_windows := λ _, [];
     popen := λ _ _, true;
     time_time := λ k, Z.of_nat k;
     win32gui := λ _ _ _ _, true |}.

(** As [quiet_world], but every launch raises. *)
Definition failing_launcher : World :=
  {| shell_windows := λ _, [];
     popen := λ _ _, false;
     time_time := λ k, Z.of_nat k;
     win32gui := λ _ _ _ _, true |}.

(** A window on ["C:\A"] is open from the start; one on ["C:\B"] shows
    up at the fourth enumeration. *)
Definition busy_world : World :=
  {| shell_windows := λ k,
       if k <? 3 then [shell_window "C:\A" 101]
       else [shell_window "C:\A" 101; shell_window "C:\B" 202];
     popen := λ _ _, true;
     time_time := λ k, Z.of_nat k;
     win32gui := λ _ _ _ _, true |}.

Definition blank_session : Session := session_of [entry "" 1].

Definition blank_dir : gmap string FileContent :=
  {[ "Work.json" := Json blank_session ]}.

Definition one_session : Session := session_of [entry "C:\A" 1].

Definition one_dir : gmap string FileContent :=
  {[ "Work.json" := Json one_session ]}.

Definition work_session : Session :=
  session_of [entry "C:\A" 1; entry "" 1; entry "C:\B" 3; entry "C:\C" 3].

Definition work_dir : gmap string FileContent :=
  {[ "Work.json" := Json work_session ]}.

(** A session with two entries on one path, as [add_path_to_session]
    or a hand-edited file can produce. *)
Definition tabs_session : Session :=
  session_of [entry "C:\A" 1; entry "C:\A" 3; entry "C:\B" 1].

Definition tabs_dir : gmap string FileContent :=
  {[ "Tabs.json" := Json tabs_session; "notes.txt" := Unparseable ]}.

Definition stamp : Timestamp :=
  {| strftime_display := "Oct 03, 2025 at 03:52:01 PM";
     isoformat := "2025-10-03T15:52:01";
     strftime_file := "20251003_155201" |}.

(** Two windows on ["C:\A"] around one on ["C:\B"]; the third answers
    [GetWindowRect] only. *)
Definition desktop : list ShellWindow :=
  [ shell_window "C:\A" 101;
    {| sw_folder_path := None; sw_hwnd := Some 7%Z; sw_placement := None;
       sw_window_rect := None |};
    shell_window "C:\B" 202;
    {| sw_folder_path := Some "C:\A"; sw_hwnd := Some 303%Z;
       sw_placement := None;
       sw_window_rect := Some (10, 20, 110, 220)%Z |} ].

(** ** Vocabulary of the further properties *)

(** Every parsed session of the directory has pairwise distinct paths. *)
Definition unique_paths (fs : gmap string FileContent) : Prop :=
  ∀ filepath data, fs !! filepath = Some (Json data) →
                   NoDup (e_path <$> get_windows data).

(** The listing is in descending order of [saved_at]: no summary is
    followed by one with a later time stamp. *)
Definition newest_first (l : list Summary) : Prop :=
  ∀ i a b, l !! i = Some a → l !! S i = Some b →
           String.leb (sm_saved_at b) (sm_saved_at a) = true.

(** [l] is empty or starts with a character outside [sp]. *)
Definition clean_head (sp : ascii → bool) (l : list ascii) : Prop :=
  match l with
  | [] => True
  | c :: _ => sp c = false
  end.

(** The command that [_apply_geometry] passes to [ShowWindow] for a
    saved [show_cmd]. *)
Definition show_command (show_cmd : Z) : Z :=
  if (show_cmd =? SW_SHOWMAXIMIZED)%Z then SW_MAXIMIZE
  else if (show_cmd =? SW_SHOWMINIMIZED)%Z || (show_cmd =? SW_MINIMIZE)%Z
       then SW_MINIMIZE
       else SW_RESTORE.

(** Some enumeration of the pass has a window on [path] with handle [h]. *)
Definition shown_as (W : World) (path : string) (h : Z) : Prop :=
  ∃ k w, w ∈ shell_windows W k
         ∧ sw_folder_path w = Some path ∧ sw_hwnd w = Some h.

(** The matched element [m] carries the rect and show command of an
    entry of [windows] with a non-empty path, and its handle is that of
    a window which showed the path of this entry. *)
Definition matches_entry (W : World) (windows : list Entry)
    (m : Z * list Z * Z) : Prop :=
  ∃ e, e ∈ windows ∧ e_path e ≠ "" ∧ m.1.2 = e_rect e ∧ m.2 = e_show_cmd e
       ∧ shown_as W (e_path e) m.1.1.

(** The element [t] of [to_open] comes from an entry of [windows] with a
    non-empty path. *)
Definition targets_entry (windows : list Entry) (t : string * list Z * Z)
  : Prop :=
  ∃ e, e ∈ windows ∧ e_path e ≠ "" ∧ t = target_of e.

(** The geometry calls of a trace: handle, rect and [ShowWindow]
    command, in the order of the calls. *)
Definition geometry_calls (tr : list Event) : list (Z * list Z * Z) :=
  omap (λ e, match e with
             | EvGeometry h rect cmd _ => Some (h, rect, cmd)
             | _ => None
             end) tr.

Definition is_success (e : Event) : bool :=
  match e with EvGeometry _ _ _ true => true | _ => false end.

(** The number of geometry calls of a trace that succeeded. *)
Definition succeeded (tr : list Event) : nat :=
  length (filter (λ e, is_success e = true) tr).

(** The geometry call that a matched element gives rise to. *)
Definition call_of (m : Z * list Z * Z) : Z * list Z * Z :=
  (m.1.1, m.1.2, show_command m.2).

(** The events of a polling round: a search from the loop, or a sleep. *)
Definition is_polling (e : Event) : bool :=
  match e with
  | EvFind Polling _ _ | EvSleep _ => true
  | _ => false
  end.

(** The number of entries with a non-empty path. *)
Definition with_path (windows : list Entry) : nat :=
  length (filter (λ w, e_path w ≠ "") windows).

(** A snapshot entry with a rect that [_apply_geometry] cannot unpack. *)
Definition broken_session : Session :=
  session_of [{| e_path := "C:\A"; e_rect := [0; 0; 800]%Z; e_show_cmd := 1 |}].

Definition broken_dir : gmap string FileContent :=
  {[ "Work.json" := Json broken_session ]}.

(** No two windows of the enumeration that show different folders
    have the same handle. *)
Definition separate_handles (shell : list ShellWindow) : Prop :=
  ∀ w1 w2 h p1 p2,
    w1 ∈ shell → w2 ∈ shell →
    sw_hwnd w1 = Some h → sw_hwnd w2 = Some h →
    sw_folder_path w1 = Some p1 → sw_folder_path w2 = Some p2 → p1 = p2.

(** The desktop does not change: every enumeration yields [shell];
    launches and geometry calls succeed; the [k]-th clock reading is [k]. *)
Definition still_world (shell : list ShellWindow) : World :=
  {| shell_windows := λ _, shell;
     popen := λ _ _, true;
     time_time := λ k, Z.of_nat k;
     win32gui := λ _ _ _ _, true |}.

(** [c] is alphanumeric, a space, a hyphen or an underscore. *)
Definition key_char `{CharClasses} (c : ascii) : Prop :=
  isalnum c = true ∨ c = " "%char ∨ c = "-"%char ∨ c = "_"%char.

#[global] Instance key_char_dec `{CharClasses} (c : ascii) :
  Decision (key_char c) :=
  or_dec _ _.

(** [core] is [l] without its leading and its trailing white space. *)
Definition stripped_to `{CharClasses} (l core : list ascii) : Prop :=
  ∃ pre post,
    l = pre ++ core ++ post
    ∧ Forall (λ c, isspace c = true) pre
    ∧ Forall (λ c, isspace c = true) post
    ∧ clean_head isspace core
    ∧ clean_head isspace (rev core).

(** * Snapshot Store: properties *)

Section Capture.

Lemma dedup_step_seen (acc : gset string * list Entry) (w : Window) :
  w_path w ∈ acc.1 → dedup_step acc w = acc.
Proof. intros Hin. unfold dedup_step. by rewrite bool_decide_eq_true_2. Qed.

Lemma dedup_step_new (acc : gset string * list Entry) (w : Window) :
  w_path w ∉ acc.1 →
  dedup_step acc w = ({[w_path w]} ∪ acc.1, acc.2 ++ [entry_of w]).
Proof. intros Hin. unfold dedup_step. by rewrite bool_decide_eq_false_2. Qed.

Lemma dedup_by_path_snoc (windows : list Window) (w : Window) :
  foldl dedup_step (∅, []) (windows ++ [w])
  = dedup_step (foldl dedup_step (∅, []) windows) w.
Proof. by rewrite foldl_app. Qed.

(** After the loop, [seen] is the set of the paths met. *)
Lemma dedup_seen (windows : list Window) :
  (foldl dedup_step (∅, []) windows).1 = list_to_set (w_path <$> windows).
Proof.
  induction windows as [|w windows IH] using rev_ind; [done|].
  rewrite dedup_by_path_snoc, fmap_app, list_to_set_app_L. simpl.
  destruct (decide (w_path w ∈ (foldl dedup_step (∅, []) windows).1)) as [Hin|Hin].
  - rewrite dedup_step_seen by done. rewrite IH in *. set_solver.
  - rewrite dedup_step_new by done. simpl. rewrite IH. set_solver.
Qed.

(** The paths kept are the paths met. *)
Lemma dedup_paths (windows : list Window) (p : string) :
  p ∈ e_path <$> dedup_by_path windows ↔ p ∈ w_path <$> windows.
Proof.
  unfold dedup_by_path.
  induction windows as [|w windows IH] using rev_ind; [done|].
  rewrite dedup_by_path_snoc.
  pose proof (dedup_seen windows) as Hseen.
  destruct (decide (w_path w ∈ (foldl dedup_step (∅, []) windows).1)) as [Hin|Hin].
  - rewrite dedup_step_seen by done. rewrite Hseen in Hin.
    rewrite IH, fmap_app. set_solver.
  - rewrite dedup_step_new by done. rewrite Hseen in Hin.
    simpl. rewrite !fmap_app. simpl. set_solver.
Qed.

Lemma dedup_NoDup (windows : list Window) :
  NoDup (e_path <$> dedup_by_path windows).
Proof.
  induction windows as [|w windows IH] using rev_ind; [constructor|].
  unfold dedup_by_path in *. rewrite dedup_by_path_snoc.
  destruct (decide (w_path w ∈ (foldl dedup_step (∅, []) windows).1)) as [Hin|Hin].
  { by rewrite dedup_step_seen. }
  rewrite dedup_step_new by done. simpl.
  rewrite dedup_seen in Hin.
  rewrite fmap_app. apply NoDup_app. split; [done|]. split.
  - intros p Hp Hp'. apply list_elem_of_singleton in Hp'. subst p.
    apply Hin. apply elem_of_list_to_set.
    by apply (dedup_paths windows (w_path w)).
  - simpl. apply NoDup_singleton.
Qed.

(** Every entry kept is the first window of its path, and the entries
    are kept in the order of these first windows. *)
Lemma dedup_first_seen (windows : list Window) :
  let es := dedup_by_path windows in
  (∀ i e, es !! i = Some e →
     ∃ k w, list_find (λ w, w_path w = e_path e) windows = Some (k, w)
            ∧ e = entry_of w)
  ∧ (∀ i1 i2 e1 e2 k1 k2 w1 w2,
       es !! i1 = Some e1 → es !! i2 = Some e2 → i1 < i2 →
       list_find (λ w, w_path w = e_path e1) windows = Some (k1, w1) →
       list_find (λ w, w_path w = e_path e2) windows = Some (k2, w2) →
       k1 < k2).
Proof.
  unfold dedup_by_path.
  induction windows as [|w windows [IH1 IH2]] using rev_ind.
  { split; intros; simplify_eq/=. }
  rewrite dedup_by_path_snoc.
  pose proof (dedup_seen windows) as Hseen.
  assert (Hold : ∀ i e, (foldl dedup_step (∅, []) windows).2 !! i = Some e →
            ∃ k w', list_find (λ w, w_path w = e_path e) (windows ++ [w])
                    = Some (k, w') ∧ e = entry_of w' ∧ k < length windows
                    ∧ list_find (λ w, w_path w = e_path e) windows = Some (k, w')).
  { intros i e Hi. destruct (IH1 i e Hi) as (k & w' & Hf & ->).
    exists k, w'. split_and!; [|done| |done].
    - apply list_find_app_Some. by left.
    - apply list_find_Some in Hf as (Hl & _). by apply lookup_lt_Some in Hl. }
  destruct (decide (w_path w ∈ (foldl dedup_step (∅, []) windows).1)) as [Hin|Hin].
  - rewrite dedup_step_seen by done. split.
    + intros i e Hi. destruct (Hold i e Hi) as (k & w' & ? & ? & _); eauto.
    + intros i1 i2 e1 e2 k1 k2 w1 w2 H1 H2 Hlt Hf1 Hf2.
      destruct (Hold _ _ H1) as (k1' & w1' & Hf1' & _ & _ & Hg1).
      destruct (Hold _ _ H2) as (k2' & w2' & Hf2' & _ & _ & Hg2).
      simplify_eq. eauto.
  - rewrite dedup_step_new by done. simpl. rewrite Hseen in Hin.
    assert (Hnew : list_find (λ w', w_path w' = w_path w) (windows ++ [w])
                   = Some (length windows, w)).
    { apply list_find_app_Some. right. split; [lia|]. split.
      - apply list_find_None, Forall_forall. intros x Hx Heq.
        apply Hin, elem_of_list_to_set, list_elem_of_fmap. eauto.
      - rewrite Nat.sub_diag. simpl. by rewrite decide_True. }
    split.
    + intros i e Hi. apply lookup_app_Some in Hi as [Hi|[_ Hi]].
      * destruct (Hold i e Hi) as (k & w' & ? & ? & _); eauto.
      * apply list_lookup_singleton_Some in Hi as [_ <-]. eauto.
    + intros i1 i2 e1 e2 k1 k2 w1 w2 H1 H2 Hlt Hf1 Hf2.
      apply lookup_app_Some in H1 as [H1|[Hge1 H1]];
        apply lookup_app_Some in H2 as [H2|[Hge2 H2]].
      * destruct (Hold _ _ H1) as (k1' & w1' & Hf1' & _ & _ & Hg1).
        destruct (Hold _ _ H2) as (k2' & w2' & Hf2' & _ & _ & Hg2).
        simplify_eq. eauto.
      * destruct (Hold _ _ H1) as (k1' & w1' & Hf1' & _ & Hk & _).
        apply list_lookup_singleton_Some in H2 as [_ <-]. simpl in Hf2.
        simplify_eq. done.
      * apply lookup_lt_Some in H2. lia.
      * apply list_lookup_singleton_Some in H1 as [? _].
        apply list_lookup_singleton_Some in H2 as [? _]. lia.
Qed.

End Capture.

(** C7: [save_session] persists, under the returned file path, an entry
    list with exactly one entry per distinct path of the enumerated
    windows; each entry carries the rect and show command of the first
    window of its path, and the entries follow the order in which these
    first windows were enumerated. *)
Theorem save_session_dedup_first_seen (cc : CharClasses)
    (fs : gmap string FileContent) (shell : list ShellWindow)
    (timestamp : Timestamp) (name : option string) :
  let windows := get_all_explorer_windows shell in
  let r := save_session fs shell timestamp name in
  ∃ payload es,
    r.1 !! r.2 = Some (Json payload)
    ∧ s_windows payload = Some es
    ∧ NoDup (e_path <$> es)
    ∧ (∀ p, p ∈ e_path <$> es ↔ p ∈ w_path <$> windows)
    ∧ (∀ i e, es !! i = Some e →
         ∃ k w, list_find (λ w, w_path w = e_path e) windows = Some (k, w)
                ∧ e_rect e = w_rect w ∧ e_show_cmd e = w_show_cmd w)
    ∧ (∀ i1 i2 e1 e2 k1 k2 w1 w2,
         es !! i1 = Some e1 → es !! i2 = Some e2 → i1 < i2 →
         list_find (λ w, w_path w = e_path e1) windows = Some (k1, w1) →
         list_find (λ w, w_path w = e_path e2) windows = Some (k2, w2) →
         k1 < k2).
Proof.
  intros windows r.
  exists (payload_of name timestamp (dedup_by_path windows)),
         (dedup_by_path windows).
  destruct (dedup_first_seen windows) as [Hfirst Horder].
  split_and!.
  - subst r. unfold save_session. simpl. apply lookup_insert_eq.
  - done.
  - apply dedup_NoDup.
  - apply dedup_paths.
  - intros i e Hi. destruct (Hfirst i e Hi) as (k & w & Hf & ->).
    exists k, w. by rewrite Hf.
  - exact Horder.
Qed.

Section Listing.

Lemma insert_desc_perm (x : Summary) (l : list Summary) :
  insert_desc x l ≡ₚ x :: l.
Proof.
  induction l as [|y l IH]; simpl; [done|].
  destruct (String.leb _ _); [done|].
  rewrite IH. apply perm_swap.
Qed.

Lemma sort_desc_perm (l : list Summary) : sort_desc l ≡ₚ l.
Proof.
  induction l as [|x l IH]; simpl; [done|].
  by rewrite insert_desc_perm, IH.
Qed.

Lemma elem_of_list_sessions (fs : gmap string FileContent) (sm : Summary) :
  sm ∈ list_sessions fs ↔
  ∃ filename, is_Some (fs !! filename) ∧ list_one fs filename = Some sm.
Proof.
  unfold list_sessions. rewrite sort_desc_perm, list_elem_of_omap.
  unfold os_listdir. split; intros (filename & Hin & Hone); exists filename.
  - split; [|done]. apply list_elem_of_fmap in Hin as ([k v] & -> & Hin).
    apply elem_of_map_to_list in Hin. eauto.
  - split; [|done]. destruct Hin as [v Hv].
    apply list_elem_of_fmap. exists (filename, v). split; [done|].
    by apply elem_of_map_to_list.
Qed.

(** [len(set(l))] is the number of distinct elements of [l]. *)
Lemma size_set_distinct (l : list string) :
  size (list_to_set l : gset string) = length (remove_dups l).
Proof.
  rewrite <- (size_list_to_set (C := gset string) (remove_dups l))
    by apply NoDup_remove_dups.
  f_equal. apply set_eq. intros x.
  by rewrite !elem_of_list_to_set, elem_of_remove_dups.
Qed.

Lemma length_remove_dups_le (l : list string) :
  length (remove_dups l) ≤ length l.
Proof.
  induction l as [|x l IH]; simpl; [lia|].
  destruct (decide_rel _ _ _); simpl; lia.
Qed.

(** A parsed [.json] file of the directory has its summary in the
    listing. *)
Lemma list_sessions_has_summary (fs : gmap string FileContent)
    (filename : string) (data : Session) :
  fs !! filename = Some (Json data) →
  endswith filename ".json" = true →
  summary_of filename data ∈ list_sessions fs.
Proof.
  intros Hfile Hjson. apply elem_of_list_sessions.
  exists filename. split; [eauto|].
  unfold list_one, load_session. by rewrite Hjson, Hfile.
Qed.

End Listing.

(** C8: every parsed [.json] file of the directory has a summary in the
    listing, whose [window_count] is the number of distinct entry paths
    and whose [tab_count] is the number of entries; and every summary of
    the listing has [window_count ≤ tab_count]. *)
Theorem list_sessions_counts (fs : gmap string FileContent) :
  (∀ filename data,
     fs !! filename = Some (Json data) →
     endswith filename ".json" = true →
     ∃ sm, sm ∈ list_sessions fs
           ∧ sm_filepath sm = filename
           ∧ window_count sm = length (remove_dups (e_path <$> get_windows data))
           ∧ tab_count sm = length (get_windows data))
  ∧ (∀ sm, sm ∈ list_sessions fs → window_count sm ≤ tab_count sm).
Proof.
  split.
  - intros filename data Hfile Hjson.
    exists (summary_of filename data). split_and!.
    + by apply list_sessions_has_summary.
    + done.
    + simpl. apply size_set_distinct.
    + done.
  - intros sm Hsm. apply elem_of_list_sessions in Hsm as (filename & _ & Hone).
    unfold list_one in Hone. destruct (endswith _ _); [|done].
    destruct (load_session fs filename) as [data| |]; simplify_eq.
    simpl. rewrite size_set_distinct.
    etrans; [apply length_remove_dups_le|]. by rewrite length_fmap.
Qed.

Section Suffix.

Lemma substring_whole (b : string) : String.substring 0 (String.length b) b = b.
Proof. induction b as [|c b IH]; simpl; [done|]. by rewrite IH. Qed.

Lemma length_app_string (a b : string) :
  String.length (a +:+ b) = String.length a + String.length b.
Proof. induction a as [|c a IH]; simpl; [done|]. by rewrite IH. Qed.

Lemma substring_app_r (a b : string) :
  String.substring (String.length a) (String.length b) (a +:+ b) = b.
Proof. induction a as [|c a IH]; simpl; [apply substring_whole|done]. Qed.

Lemma app_string_assoc (a b c : string) : a +:+ (b +:+ c) = (a +:+ b) +:+ c.
Proof.
  induction a as [|x a IH]; [done|].
  change (String x (a +:+ (b +:+ c)) = String x ((a +:+ b) +:+ c)).
  by rewrite IH.
Qed.

Lemma endswith_app (a b : string) : endswith (a +:+ b) b = true.
Proof.
  unfold endswith. rewrite length_app_string.
  replace (String.length a + String.length b - String.length b)
    with (String.length a) by lia.
  rewrite substring_app_r, String.eqb_refl, andb_true_r.
  apply Nat.leb_le. lia.
Qed.

Lemma filename_of_json (cc : CharClasses) (name : option string)
    (timestamp : Timestamp) :
  endswith (filename_of name timestamp) ".json" = true.
Proof.
  unfold filename_of. destruct name as [n|]; [destruct (truthy _)|].
  - apply endswith_app.
  - rewrite app_string_assoc. apply endswith_app.
  - rewrite app_string_assoc. apply endswith_app.
Qed.

End Suffix.

(** X20: capture then list: the listing has a summary of the file just
    written, with the counts of the captured entries. *)
Lemma save_then_list (cc : CharClasses) (fs : gmap string FileContent)
    (shell : list ShellWindow) (timestamp : Timestamp) (name : option string) :
  let es := dedup_by_path (get_all_explorer_windows shell) in
  let r := save_session fs shell timestamp name in
  ∃ sm, sm ∈ list_sessions r.1
        ∧ sm_filepath sm = r.2
        ∧ window_count sm = length (remove_dups (e_path <$> es))
        ∧ tab_count sm = length es.
Proof.
  intros es r.
  exists (summary_of r.2 (payload_of name timestamp es)). split_and!.
  - apply list_sessions_has_summary.
    + apply lookup_insert_eq.
    + apply filename_of_json.
  - done.
  - simpl. apply size_set_distinct.
  - done.
Qed.

(** C5: on a stored session, [remove_path_from_session] keeps exactly the
    entries whose path differs from [path_to_remove], in their order.
    When nothing is left the file is deleted, the call returns [False]
    and loading the file raises [FileNotFoundError]; otherwise the call
    returns [True] and the file holds a session with the name and the
    time stamp it had and with the kept entries as its entries. *)
Theorem remove_path_from_session_spec (fs : gmap string FileContent)
    (filepath path_to_remove : string) (data : Session) :
  fs !! filepath = Some (Json data) →
  let kept := filter (λ w, e_path w ≠ path_to_remove) (get_windows data) in
  (kept = [] →
     ∃ fs', remove_path_from_session fs filepath path_to_remove = Ok (fs', false)
            ∧ fs' = delete filepath fs
            ∧ load_session fs' filepath = Raise FileNotFoundError)
  ∧ (kept ≠ [] →
     ∃ fs' data',
       remove_path_from_session fs filepath path_to_remove = Ok (fs', true)
       ∧ fs' = <[filepath := Json data']> fs
       ∧ load_session fs' filepath = Ok data'
       ∧ s_windows data' = Some kept
       ∧ get_windows data' = kept
       ∧ s_name data' = s_name data
       ∧ s_saved_at data' = s_saved_at data
       ∧ (∀ w, w ∈ get_windows data' ↔
               w ∈ get_windows data ∧ e_path w ≠ path_to_remove)
       ∧ get_windows data' `sublist_of` get_windows data).
Proof.
  intros Hfile kept.
  unfold remove_path_from_session, load_session. rewrite Hfile. simpl.
  fold kept. split; intros Hkept.
  - rewrite Hkept. exists (delete filepath fs). split_and!.
    + unfold delete_session. rewrite bool_decide_eq_true_2; eauto.
    + done.
    + by rewrite lookup_delete_eq.
  - destruct kept as [|w kept'] eqn:Ek; [done|].
    eexists _, (set_windows data (w :: kept')).
    split_and!; try done.
    + by rewrite lookup_insert_eq.
    + intros x. change (get_windows (set_windows data (w :: kept')))
        with (w :: kept').
      rewrite <- Ek. subst kept. rewrite list_elem_of_filter. tauto.
    + change (get_windows (set_windows data (w :: kept'))) with (w :: kept').
      rewrite <- Ek. subst kept. apply sublist_filter.
Qed.

(** C6: on a stored session, [add_path_to_session] with a path that some
    entry already has returns [False] and leaves the directory, and so
    the stored session, as it was; with a new path it returns [True] and
    the file holds a session with the name and the time stamp it had,
    whose entries are the old ones followed by one entry for the path,
    with rect [100, 100, 1000, 600] and show command [1] where these are
    not given. *)
Theorem add_path_to_session_spec (fs : gmap string FileContent)
    (filepath new_path : string) (rect : option (list Z))
    (show_cmd : option Z) (data : Session) :
  fs !! filepath = Some (Json data) →
  (new_path ∈ e_path <$> get_windows data →
     add_path_to_session fs filepath new_path rect show_cmd = Ok (fs, false)
     ∧ load_session fs filepath = Ok data)
  ∧ (new_path ∉ e_path <$> get_windows data →
     let new_window :=
       {| e_path := new_path;
          e_rect := default [100; 100; 1000; 600]%Z rect;
          e_show_cmd := default 1%Z show_cmd |} in
     ∃ fs' data',
       add_path_to_session fs filepath new_path rect show_cmd = Ok (fs', true)
       ∧ fs' = <[filepath := Json data']> fs
       ∧ load_session fs' filepath = Ok data'
       ∧ s_windows data' = Some (get_windows data ++ [new_window])
       ∧ get_windows data' = get_windows data ++ [new_window]
       ∧ s_name data' = s_name data
       ∧ s_saved_at data' = s_saved_at data).
Proof.
  intros Hfile.
  assert (Hex : existsb (λ window, String.eqb (e_path window) new_path)
                  (get_windows data) = true
                ↔ new_path ∈ e_path <$> get_windows data).
  { rewrite existsb_exists, list_elem_of_fmap. split.
    - intros (w & Hin & Heq). apply String.eqb_eq in Heq.
      exists w. split; [done|]. by apply list_elem_of_In.
    - intros (w & -> & Hin). exists w. split; [by apply list_elem_of_In|].
      apply String.eqb_refl. }
  unfold add_path_to_session, load_session. rewrite Hfile. simpl. split.
  - intros Hin. apply Hex in Hin. by rewrite Hin.
  - intros Hnin. cbv zeta.
    destruct (existsb _ _) eqn:E; [exfalso; by apply Hnin, Hex|].
    eexists _, _. split; [done|].
    split_and!; try done. by rewrite lookup_insert_eq.
Qed.

Section Sanitise.

Context {cc : CharClasses}.

Lemma truthy_nonempty (n : string) : n ≠ "" → truthy (Some n) = true.
Proof. intros Hn. simpl. by apply String.eqb_neq in Hn as ->. Qed.

Lemma filename_of_named (n : string) (timestamp : Timestamp) :
  n ≠ "" → filename_of (Some n) timestamp = safe_name n +:+ ".json".
Proof. intros Hn. unfold filename_of. by rewrite truthy_nonempty. Qed.

Lemma allowed_chars_none (n : string) :
  (∀ c, c ∈ String.list_ascii_of_string n → allowed c = false) →
  allowed_chars n = "".
Proof.
  unfold allowed_chars. intros Hall.
  induction (String.list_ascii_of_string n) as [|c l IH]; [done|].
  rewrite filter_cons_False.
  - apply IH. intros c' Hc'. apply Hall. by right.
  - rewrite (Hall c); [done|by left].
Qed.

Lemma strip_empty : strip "" = "".
Proof. done. Qed.

End Sanitise.

Section SanitiseMore.

Variable sp : ascii → bool.

Lemma lstrip_clean_head (l : list ascii) : clean_head sp (lstrip sp l).
Proof.
  induction l as [|c l IH]; simpl; [done|].
  destruct (sp c) eqn:E; [done|]. exact E.
Qed.

Lemma lstrip_fixed (l : list ascii) : clean_head sp l → lstrip sp l = l.
Proof. destruct l as [|c l]; simpl; [done|]. by intros ->. Qed.

(** [lstrip] drops a prefix. *)
Lemma lstrip_suffix (l : list ascii) : ∃ pre, l = pre ++ lstrip sp l.
Proof.
  induction l as [|c l [pre IH]]; simpl; [by exists []|].
  destruct (sp c); [|by exists []].
  exists (c :: pre). simpl. by rewrite <- IH.
Qed.

Lemma head_rev (l : list ascii) : head (rev l) = last l.
Proof. rewrite rev_alt. apply head_reverse. Qed.

(** Stripping on the right keeps a clean head. *)
Lemma rstrip_clean_head (a : list ascii) :
  clean_head sp a → clean_head sp (rev (lstrip sp (rev a))).
Proof.
  intros Ha. destruct (lstrip_suffix (rev a)) as [pre Hpre].
  apply (f_equal (@rev ascii)) in Hpre.
  rewrite rev_involutive, rev_app_distr in Hpre.
  destruct (rev (lstrip sp (rev a))) as [|c b]; [done|].
  rewrite Hpre in Ha. exact Ha.
Qed.

Lemma strip_list_fixed (b : list ascii) :
  clean_head sp b → clean_head sp (rev b) →
  rev (lstrip sp (rev (lstrip sp b))) = b.
Proof.
  intros Hb Hr. rewrite (lstrip_fixed b) by done.
  rewrite (lstrip_fixed (rev b)) by done. apply rev_involutive.
Qed.

Lemma strip_list_sublist (l : list ascii) :
  rev (lstrip sp (rev (lstrip sp l))) `sublist_of` l.
Proof.
  destruct (lstrip_suffix l) as [pre Hpre].
  destruct (lstrip_suffix (rev (lstrip sp l))) as [pre' Hpre'].
  apply (f_equal (@rev ascii)) in Hpre'.
  rewrite rev_involutive, rev_app_distr in Hpre'.
  set (a := lstrip sp l) in *.
  set (b := rev (lstrip sp (rev a))) in *.
  rewrite Hpre, Hpre'.
  by apply sublist_inserts_l, sublist_inserts_r.
Qed.

(** Stripping the white space around [core] gives [core]. *)
Lemma lstrip_spaces (pre l : list ascii) :
  Forall (λ c, sp c = true) pre → lstrip sp (pre ++ l) = lstrip sp l.
Proof. induction 1 as [|c pre Hc _ IH]; simpl; [done|]. by rewrite Hc. Qed.

Lemma strip_list_core (pre core post : list ascii) :
  Forall (λ c, sp c = true) pre → Forall (λ c, sp c = true) post →
  clean_head sp core → clean_head sp (rev core) →
  rev (lstrip sp (rev (lstrip sp (pre ++ core ++ post)))) = core.
Proof.
  intros Hpre Hpost Hhead Hlast.
  rewrite lstrip_spaces by done.
  destruct core as [|c core].
  - simpl. rewrite <- (app_nil_r post), lstrip_spaces by done. done.
  - change (lstrip sp ((c :: core) ++ post)) with
      (if sp c then lstrip sp (core ++ post) else c :: core ++ post).
    simpl in Hhead. rewrite Hhead.
    change (c :: core ++ post) with ((c :: core) ++ post).
    rewrite rev_app_distr, lstrip_spaces.
    + rewrite lstrip_fixed by done. apply rev_involutive.
    + rewrite rev_alt. by apply Forall_reverse.
Qed.

End SanitiseMore.

(** C10: the file name that [save_session] derives from a name depends
    only on the sequence of its alphanumeric characters, spaces, hyphens
    and underscores without the white space around it.  Two captures
    under names with the same such sequence [core] both write the file
    [core.json], and after the second capture the directory is what the
    second capture alone would have left: the first directory with the
    second session under that name, the first session gone.  A non-empty
    name without any such character gives the file name [".json"]. *)
Theorem save_session_key_collision (cc : CharClasses) :
  (∀ (fs : gmap string FileContent) (shell1 shell2 : list ShellWindow)
     (ts1 ts2 : Timestamp) (name1 name2 : string) (core : list ascii),
     name1 ≠ "" → name2 ≠ "" →
     stripped_to (filter key_char (String.list_ascii_of_string name1)) core →
     stripped_to (filter key_char (String.list_ascii_of_string name2)) core →
     let key := String.string_of_list_ascii core +:+ ".json" in
     let second :=
       payload_of (Some name2) ts2
         (dedup_by_path (get_all_explorer_windows shell2)) in
     let r1 := save_session fs shell1 ts1 (Some name1) in
     let r2 := save_session r1.1 shell2 ts2 (Some name2) in
     r1.2 = key ∧ r2.2 = key
     ∧ r2.1 = <[key := Json second]> fs
     ∧ r2.1 = (save_session fs shell2 ts2 (Some name2)).1
     ∧ load_session r2.1 key = Ok second
     ∧ s_name second = Some name2)
  ∧ (∀ (fs : gmap string FileContent) (shell : list ShellWindow)
       (name : string) (timestamp : Timestamp),
       name ≠ "" →
       (∀ c, c ∈ String.list_ascii_of_string name → ¬ key_char c) →
       (save_session fs shell timestamp (Some name)).2 = ".json").
Proof.
  assert (Hallowed : ∀ c, allowed c = true ↔ key_char c).
  { intros c. unfold allowed, key_char, ascii_in.
    rewrite orb_true_iff, bool_decide_eq_true, !elem_of_cons, elem_of_nil.
    tauto. }
  assert (Hkept : ∀ n, String.list_ascii_of_string (allowed_chars n)
                       = filter key_char (String.list_ascii_of_string n)).
  { intros n. unfold allowed_chars.
    rewrite String.list_ascii_of_string_of_list_ascii.
    apply list_filter_iff, Hallowed. }
  assert (Hname : ∀ n core,
            n ≠ "" →
            stripped_to (filter key_char (String.list_ascii_of_string n)) core →
            ∀ ts, filename_of (Some n) ts
                  = String.string_of_list_ascii core +:+ ".json").
  { intros n core Hn (pre & post & Hl & Hpre & Hpost & Hhead & Hlast) ts.
    rewrite filename_of_named by done. unfold safe_name, strip.
    by rewrite Hkept, Hl, strip_list_core. }
  split.
  - intros fs shell1 shell2 ts1 ts2 name1 name2 core Hn1 Hn2 H1 H2
      key second r1 r2.
    pose proof (Hname name1 core Hn1 H1 ts1) as K1.
    pose proof (Hname name2 core Hn2 H2 ts2) as K2.
    subst r1 r2. unfold save_session. cbn [fst snd].
    rewrite K1, K2. fold key second. split_and!; try done.
    + apply insert_insert_eq.
    + apply insert_insert_eq.
    + unfold load_session. by rewrite lookup_insert_eq.
    + subst second. unfold payload_of. cbn [s_name].
      by rewrite truthy_nonempty.
  - intros fs shell name timestamp Hn Hnone.
    unfold save_session. cbn [snd].
    rewrite filename_of_named by done. unfold safe_name.
    rewrite allowed_chars_none; [done|].
    intros c Hc. specialize (Hnone c Hc).
    destruct (allowed c) eqn:E; [|done]. by apply Hallowed in E.
Qed.

(** * Restore Engine: properties *)

Section Search.

(** The search never returns a handle of the claimed set. *)
Lemma _find_window_by_path_unused (shell : list ShellWindow) (path : string)
    (used : gset Z) (h : Z) :
  _find_window_by_path shell path used = Some h → h ∉ used.
Proof.
  induction shell as [|w shell IH]; simpl; [done|].
  destruct (sw_folder_path w) as [window_path|]; [|done].
  destruct (sw_hwnd w) as [hwnd|]; [|done].
  destruct (bool_decide (window_path = path)); simpl; [|done].
  case_bool_decide as Hused; [|done]. by intros [= <-].
Qed.

(** The handle returned belongs to a window that shows the path. *)
Lemma _find_window_by_path_shows (shell : list ShellWindow) (path : string)
    (used : gset Z) (h : Z) :
  _find_window_by_path shell path used = Some h →
  ∃ w, w ∈ shell ∧ sw_folder_path w = Some path ∧ sw_hwnd w = Some h.
Proof.
  induction shell as [|w shell IH]; simpl; [done|].
  destruct (sw_folder_path w) as [window_path|] eqn:Ep;
    [|intros Hf; destruct (IH Hf) as (w' & ? & ?); exists w'; split; [by right|done]].
  destruct (sw_hwnd w) as [hwnd|] eqn:Eh;
    [|intros Hf; destruct (IH Hf) as (w' & ? & ?); exists w'; split; [by right|done]].
  case_bool_decide as Hp; simpl.
  - case_bool_decide as Hused.
    + intros [= <-]. exists w. subst. split; [by left|done].
    + intros Hf; destruct (IH Hf) as (w' & ? & ?); exists w'; split; [by right|done].
  - intros Hf; destruct (IH Hf) as (w' & ? & ?); exists w'; split; [by right|done].
Qed.

Lemma _find_window_by_path_never (shell : list ShellWindow) (path : string)
    (used : gset Z) :
  (∀ w, w ∈ shell → sw_folder_path w ≠ Some path) →
  _find_window_by_path shell path used = None.
Proof.
  intros Hnone.
  destruct (_find_window_by_path shell path used) as [h|] eqn:E; [|done].
  apply _find_window_by_path_shows in E as (w & Hin & Hp & _).
  by destruct (Hnone w Hin).
Qed.

End Search.

Section Coherence.

Lemma hwnds_snoc (l : list (Z * list Z * Z)) (h : Z) (rect : list Z) (c : Z) :
  hwnds (l ++ [(h, rect, c)]) = hwnds l ++ [h].
Proof. unfold hwnds. by rewrite fmap_app. Qed.

Lemma coherent_init : coherent (locals0, env0).
Proof.
  split_and!; simpl.
  - done.
  - constructor.
  - intros h Hh. by apply elem_of_nil in Hh.
Qed.

(** Coherence survives any step that keeps the matched set and only
    adds events. *)
Lemma coherent_frame (l l' : Locals) (env env' : Env) (evs : list Event) :
  coherent (l, env) →
  used_hwnds l' = used_hwnds l →
  to_restore l' = to_restore l →
  trace env' = trace env ++ evs →
  coherent (l', env').
Proof.
  intros (Hused & Hnd & Hfound) Hu Hr Ht. unfold coherent. simpl in *.
  rewrite Hu, Hr, Ht. split_and!; [done..|].
  intros h Hh. destruct (Hfound h Hh) as (i & Hi & site & p & Hev).
  exists i. split; [rewrite length_app; lia|].
  exists site, p. by rewrite lookup_app_l.
Qed.

(** Coherence survives the claim of a handle that a search has just
    returned. *)
Lemma coherent_claim (W : World) (site : Site) (path : string) (l : Locals)
    (env : Env) (h : Z) (rect : list Z) (c : Z) :
  coherent (l, env) →
  (find_window W site path (used_hwnds l) env).1 = Some h →
  coherent (claim h rect c l, (find_window W site path (used_hwnds l) env).2).
Proof.
  intros (Hused & Hnd & Hfound) Hfind. unfold coherent. simpl in *.
  pose proof (_find_window_by_path_unused _ _ _ _ Hfind) as Hfresh.
  rewrite Hfind, hwnds_snoc. split_and!.
  - rewrite list_to_set_app_L, Hused. set_solver.
  - apply NoDup_app. split_and!; [done| |apply NoDup_singleton].
    intros x Hx Hx'. apply list_elem_of_singleton in Hx'. subst x.
    apply Hfresh. rewrite Hused. by apply elem_of_list_to_set.
  - intros x Hx. apply elem_of_app in Hx as [Hx|Hx].
    + destruct (Hfound x Hx) as (i & Hi & site' & p & Hev).
      exists i. split; [rewrite length_app; lia|].
      exists site', p. by rewrite lookup_app_l.
    + apply list_elem_of_singleton in Hx. subst x.
      exists (length (trace env)). split; [rewrite length_app; simpl; lia|].
      exists site, path. rewrite lookup_app_r by lia.
      by rewrite Nat.sub_diag.
Qed.

End Coherence.

Section Classify.

Variable W : World.

(** What one iteration of the first loop does to the state. *)
Lemma classify_step_spec (st : Locals * Env) (w : Entry) :
  let st' := classify_step W st w in
  restored st'.1 = restored st.1
  ∧ skipped st'.1 + length (to_open st'.1) + length (to_restore st'.1)
    = skipped st.1 + length (to_open st.1) + length (to_restore st.1) + 1
  ∧ (coherent st → coherent st')
  ∧ (∃ evs, trace st'.2 = trace st.2 ++ evs
            ∧ Forall (λ e, is_detect e = true) evs)
  ∧ time_calls st'.2 = time_calls st.2.
Proof.
  destruct st as [l env]. unfold classify_step. simpl.
  destruct (String.eqb (e_path w) "") eqn:Epath.
  - simpl. split_and!; [done|lia| |by exists []; rewrite app_nil_r|done].
    intros Hc. by eapply (coherent_frame l _ env env []);
      [done|done|done|rewrite app_nil_r].
  - destruct (_find_window_by_path _ _ _) as [hwnd|] eqn:Efind; simpl.
    + split_and!; [done|rewrite length_app; simpl; lia| | |done].
      * intros Hc.
        pose proof (coherent_claim W AlreadyOpen (e_path w) l env hwnd
                      (e_rect w) (e_show_cmd w) Hc Efind) as Hc'.
        simpl in Hc'. by rewrite Efind in Hc'.
      * eexists. split; [done|]. by repeat constructor.
    + split_and!; [done|rewrite length_app; simpl; lia| | |done].
      * intros Hc. by eapply coherent_frame.
      * eexists. split; [done|]. by repeat constructor.
Qed.

Lemma classify_spec (windows : list Entry) (st : Locals * Env) :
  let st' := classify W windows st in
  restored st'.1 = restored st.1
  ∧ skipped st'.1 + length (to_open st'.1) + length (to_restore st'.1)
    = skipped st.1 + length (to_open st.1) + length (to_restore st.1)
      + length windows
  ∧ (coherent st → coherent st')
  ∧ (∃ evs, trace st'.2 = trace st.2 ++ evs
            ∧ Forall (λ e, is_detect e = true) evs)
  ∧ time_calls st'.2 = time_calls st.2.
Proof.
  revert st. induction windows as [|w windows IH]; intros st; simpl.
  { split_and!; [done|lia|done|by exists []; rewrite app_nil_r|done]. }
  destruct (classify_step_spec st w) as (R1 & C1 & H1 & (evs1 & T1 & F1) & K1).
  destruct (IH (classify_step W st w)) as (R2 & C2 & H2 & (evs2 & T2 & F2) & K2).
  unfold classify in *. split_and!.
  - by rewrite R2.
  - rewrite C2. simpl in C1. lia.
  - auto.
  - exists (evs1 ++ evs2). split; [by rewrite T2, T1, app_assoc|].
    by apply Forall_app.
  - by rewrite K2.
Qed.

(** When no live window shows a path of the entries and no path is
    empty, the first loop puts every entry into [to_open]. *)
Lemma classify_never_live (windows : list Entry) (st : Locals * Env) :
  never_live W (e_path <$> windows) →
  Forall (λ w, e_path w ≠ "") windows →
  (classify W windows st).1
  = {| used_hwnds := used_hwnds st.1; restored := restored st.1;
       skipped := skipped st.1;
       to_open := to_open st.1 ++ (target_of <$> windows);
       to_restore := to_restore st.1 |}.
Proof.
  revert st. induction windows as [|w windows IH]; intros [l env] Hnever Hne.
  { simpl. rewrite app_nil_r. by destruct l. }
  apply Forall_cons in Hne as [Hw Hne].
  unfold classify in *. simpl. rewrite IH; [|..|done].
  - unfold classify_step. simpl.
    apply String.eqb_neq in Hw. rewrite Hw.
    rewrite _find_window_by_path_never; simpl.
    + by rewrite <- app_assoc.
    + intros x Hx Hp. eapply Hnever; [done..|]. by left.
  - intros k x p Hx Hp Hin. eapply Hnever; [done..|]. simpl. by right.
Qed.

End Classify.

Section Launch.

Variable W : World.

Lemma failed_launches_app (a b : list Event) :
  failed_launches (a ++ b) = failed_launches a + failed_launches b.
Proof. unfold failed_launches. by rewrite filter_app, length_app. Qed.

Lemma failed_launches_cons (e : Event) (evs : list Event) :
  failed_launches (e :: evs)
  = (if is_failed_launch e then 1 else 0) + failed_launches evs.
Proof.
  unfold failed_launches. destruct (is_failed_launch e) eqn:E.
  - by rewrite filter_cons_True.
  - rewrite filter_cons_False; [done|]. by rewrite E.
Qed.

Lemma set_skipped_id (l : Locals) : set_skipped (skipped l) l = l.
Proof. by destruct l. Qed.

(** The launch loop over [l]: one launch event per element, in order;
    [skipped] grows by the number of failed launches and nothing else
    changes. *)
Lemma launch_fold_spec (l : list (string * list Z * Z)) (st : Locals * Env) :
  let st' := foldl (launch_step W) st l in
  ∃ evs, trace st'.2 = trace st.2 ++ evs
         ∧ Forall (launch_of W) evs
         ∧ launched evs = (λ t, t.1.1) <$> l
         ∧ st'.1 = set_skipped (skipped st.1 + failed_launches evs) st.1
         ∧ time_calls st'.2 = time_calls st.2.
Proof.
  revert st. induction l as [|t l IH]; intros [loc env]; simpl.
  { exists []. rewrite app_nil_r. split_and!; try done.
    unfold failed_launches. simpl. by rewrite Nat.add_0_r, set_skipped_id. }
  destruct (IH (launch_step W (loc, env) t)) as (evs & T & F & L & S & K).
  exists (EvLaunch t.1.1 (popen W (popen_calls env) t.1.1) :: evs).
  unfold launch_step in *. simpl in *.
  destruct (popen W (popen_calls env) t.1.1) eqn:Eok; simpl in *.
  - split_and!.
    + by rewrite T, <- app_assoc.
    + constructor; [|done]. exists (popen_calls env), t.1.1. by rewrite Eok.
    + by rewrite L.
    + rewrite S. by rewrite failed_launches_cons.
    + done.
  - split_and!.
    + by rewrite T, <- app_assoc.
    + constructor; [|done]. exists (popen_calls env), t.1.1. by rewrite Eok.
    + by rewrite L.
    + rewrite S, failed_launches_cons. unfold set_skipped. simpl.
      f_equal. lia.
    + done.
Qed.

Lemma failed_launches_none (evs : list Event) :
  Forall (λ e, is_failed_launch e = false) evs → failed_launches evs = 0.
Proof.
  unfold failed_launches. induction 1 as [|e evs He _ IH]; [done|].
  rewrite filter_cons_False; [done|]. by rewrite He.
Qed.

End Launch.

Section Polling.

Variable W : World.

(** One polling round: every entry that leaves [remaining] enters the
    matched set; the counters are left alone. *)
Lemma poll_round_spec (i : nat) (remaining : list (string * list Z * Z))
    (st : Locals * Env) :
  let r := poll_round W i remaining st in
  restored r.2.1 = restored st.1
  ∧ skipped r.2.1 = skipped st.1
  ∧ to_open r.2.1 = to_open st.1
  ∧ length r.1 + length (to_restore r.2.1)
    = length remaining + length (to_restore st.1)
  ∧ (coherent st → coherent r.2)
  ∧ (∃ evs, trace r.2.2 = trace st.2 ++ evs
            ∧ Forall (λ e, is_waiting e = true) evs)
  ∧ time_calls r.2.2 = time_calls st.2.
Proof.
  revert remaining st. induction i as [|i IH]; intros remaining [l env]; simpl.
  { split_and!; try done. by exists []; rewrite app_nil_r. }
  destruct (remaining !! i) as [[[path rect] show_cmd]|] eqn:Elook; simpl.
  2:{ split_and!; try done. by exists []; rewrite app_nil_r. }
  destruct (_find_window_by_path _ _ _) as [hwnd|] eqn:Efind.
  - match goal with |- context [poll_round W i ?rem ?st] =>
      destruct (IH rem st) as (R & S & O & C & H & (evs & T & F) & K) end.
    simpl in *. split_and!; try done.
    + rewrite C, length_delete by eauto. rewrite length_app. simpl.
      apply lookup_lt_Some in Elook. lia.
    + intros Hc. apply H.
      pose proof (coherent_claim W Polling path l env hwnd rect show_cmd
                    Hc Efind) as Hc'.
      simpl in Hc'. by rewrite Efind in Hc'.
    + eexists. split; [by rewrite T, <- app_assoc|]. by constructor.
  - match goal with |- context [poll_round W i ?rem ?st] =>
      destruct (IH rem st) as (R & S & O & C & H & (evs & T & F) & K) end.
    simpl in *. split_and!; try done.
    + intros Hc. apply H. by eapply coherent_frame.
    + eexists. split; [by rewrite T, <- app_assoc|]. by constructor.
Qed.

(** A round in which no live window shows a path of [remaining] changes
    neither [remaining] nor the locals. *)
Lemma poll_round_never_live (paths : list string) (i : nat)
    (remaining : list (string * list Z * Z)) (st : Locals * Env) :
  never_live W paths →
  Forall (λ t, t.1.1 ∈ paths) remaining →
  (poll_round W i remaining st).1 = remaining
  ∧ (poll_round W i remaining st).2.1 = st.1.
Proof.
  intros Hnever Hin. revert st.
  induction i as [|i IH]; intros [l env]; simpl; [done|].
  destruct (remaining !! i) as [[[path rect] show_cmd]|] eqn:Elook; [|done].
  simpl. rewrite _find_window_by_path_never.
  - apply IH.
  - intros w Hw Hp. eapply Hnever; [done..|].
    eapply Forall_lookup_1 in Hin; [|done]. done.
Qed.

End Polling.

Section Waiting.

Variable W : World.

(** The waiting loop, when it ends: every entry that left [remaining]
    entered the matched set. *)
Lemma wait_loop_spec (fuel : nat) (deadline poll_interval : Z)
    (remaining : list (string * list Z * Z)) (st : Locals * Env)
    (r : list (string * list Z * Z) * (Locals * Env)) :
  wait_loop W fuel deadline poll_interval remaining st = Ok r →
  restored r.2.1 = restored st.1
  ∧ skipped r.2.1 = skipped st.1
  ∧ to_open r.2.1 = to_open st.1
  ∧ length r.1 + length (to_restore r.2.1)
    = length remaining + length (to_restore st.1)
  ∧ (coherent st → coherent r.2)
  ∧ (∃ evs, trace r.2.2 = trace st.2 ++ evs
            ∧ Forall (λ e, is_waiting e = true) evs).
Proof.
  revert remaining st.
  induction fuel as [|fuel IH]; intros remaining [l env] Hrun.
  - destruct remaining as [|t remaining]; simpl in Hrun.
    + simplify_eq. split_and!; try done. by exists []; rewrite app_nil_r.
    + destruct (_ <? _)%Z; [done|]. simplify_eq. simpl.
      split_and!; try done.
      * intros Hc. by eapply coherent_frame.
      * eexists. split; [done|]. by repeat constructor.
  - destruct remaining as [|t remaining].
    { simpl in Hrun. simplify_eq. split_and!; try done.
      by exists []; rewrite app_nil_r. }
    cbn [wait_loop] in Hrun.
    destruct (_ <? _)%Z.
    2:{ simplify_eq. simpl. split_and!; try done.
        - intros Hc. by eapply coherent_frame.
        - eexists. split; [done|]. by repeat constructor. }
    set (rem0 := t :: remaining) in *.
    set (st1 := (l, (read_clock W env).2)) in *.
    cbn [fst snd] in Hrun. fold st1 in Hrun.
    destruct (poll_round_spec W (length rem0) rem0 st1)
      as (R & S & O & C & H & (evs & T & F) & _).
    destruct (poll_round W (length rem0) rem0 st1) as [rem1 [l1 env1]].
    assert (Hc1 : coherent (l, env) → coherent st1).
    { intros Hc. by eapply coherent_frame. }
    subst st1 rem0. cbn [fst snd length] in *.
    destruct rem1 as [|t1 rem1].
    + apply IH in Hrun as (R' & S' & O' & C' & H' & (evs' & T' & F')).
      cbn [fst snd] in *. split_and!; [congruence..| |auto|].
      * rewrite C'. simpl. simpl in C. lia.
      * exists (EvTime (time_time W (time_calls env)) :: evs ++ evs').
        split; [rewrite T', T; simpl; by rewrite <- !app_assoc|].
        constructor; [done|]. by apply Forall_app.
    + unfold sleep in Hrun. destruct (poll_interval <? 0)%Z; [done|].
      apply IH in Hrun as (R' & S' & O' & C' & H' & (evs' & T' & F')).
      cbn [fst snd] in *. split_and!; [congruence..| | |].
      * rewrite C'. simpl. simpl in C. lia.
      * intros Hc. apply H'. eapply coherent_frame; [by apply H, Hc1|done..].
      * exists (EvTime (time_time W (time_calls env))
                  :: evs ++ EvSleep poll_interval :: evs').
        split; [rewrite T'; simpl; rewrite T; simpl; by rewrite <- !app_assoc|].
        constructor; [done|]. apply Forall_app. split; [done|by constructor].
Qed.

Lemma skip_all (l : Locals) (remaining : list (string * list Z * Z)) :
  foldl (λ l _, add_skipped l) l remaining
  = set_skipped (skipped l + length remaining) l.
Proof.
  revert l. induction remaining as [|t remaining IH]; intros l; simpl.
  - by rewrite Nat.add_0_r, set_skipped_id.
  - rewrite IH. unfold set_skipped. simpl. f_equal. lia.
Qed.

(** The waiting phase, when it ends: each entry of [to_open] is either
    matched or counted as skipped. *)
Lemma wait_for_windows_spec (fuel : nat) (open_timeout poll_interval : Z)
    (st st' : Locals * Env) :
  wait_for_windows W fuel open_timeout poll_interval st = Ok st' →
  restored st'.1 = restored st.1
  ∧ to_open st'.1 = to_open st.1
  ∧ skipped st'.1 + length (to_restore st'.1)
    = skipped st.1 + length (to_open st.1) + length (to_restore st.1)
  ∧ (coherent st → coherent st')
  ∧ (∃ evs, trace st'.2 = trace st.2 ++ evs
            ∧ Forall (λ e, is_waiting e = true) evs).
Proof.
  destruct st as [l env]. unfold wait_for_windows. cbn [fst snd].
  destruct (to_open l) as [|t ts] eqn:Eopen.
  { intros [= <-]. simpl. rewrite Eopen. split_and!; try done; [simpl; lia|].
    by exists []; rewrite app_nil_r. }
  intros Hrun.
  destruct (wait_loop W fuel _ poll_interval (t :: ts) _) as [r| |] eqn:Eloop;
    [|done..].
  simpl in Hrun. simplify_eq.
  apply wait_loop_spec in Eloop as (R & S & O & C & H & (evs & T & F)).
  destruct r as [rem [l' env']]. cbn [fst snd] in *. rewrite skip_all.
  simpl. split_and!; [done|congruence| | |].
  - rewrite S. simpl in C. lia.
  - intros Hc. eapply (coherent_frame l' _ env' env' []);
      [|done|done|by rewrite app_nil_r].
    apply H. by eapply coherent_frame.
  - eexists (_ :: evs). split; [rewrite T; simpl; by rewrite <- app_assoc|].
    by constructor.
Qed.

End Waiting.

Section Geometry.

Variable W : World.

(** The geometry loop over [l], when no unpacking raises: one geometry
    event per element, each on a handle of [l], and one count for each. *)
Lemma apply_all_spec (l : list (Z * list Z * Z)) (st st' : Locals * Env) :
  apply_all W l st = Ok st' →
  restored st'.1 + skipped st'.1 = restored st.1 + skipped st.1 + length l
  ∧ to_open st'.1 = to_open st.1
  ∧ to_restore st'.1 = to_restore st.1
  ∧ (∃ evs, trace st'.2 = trace st.2 ++ evs
            ∧ Forall (geometry_on (hwnds l)) evs).
Proof.
  revert st. induction l as [|[[hwnd rect] show_cmd] l IH]; intros [loc env].
  { simpl. intros [= <-]. split_and!; try done; try (simpl; lia).
    by exists []; rewrite app_nil_r. }
  cbn [apply_all]. unfold _apply_geometry.
  destruct rect as [|a [|b [|c [|d [|? ?]]]]]; try done.
  cbn [bind fst snd]. intros Hrun.
  apply IH in Hrun as (C & O & R & (evs & T & F)).
  cbn [fst snd] in *. split_and!.
  - rewrite C. destruct (win32gui _ _ _ _ _); simpl; lia.
  - rewrite O. by destruct (win32gui _ _ _ _ _).
  - rewrite R. by destruct (win32gui _ _ _ _ _).
  - eexists (_ :: evs). split; [rewrite T; simpl; by rewrite <- app_assoc|].
    constructor.
    + do 4 eexists. split; [done|]. simpl. by left.
    + eapply Forall_impl; [done|]. simpl.
      intros e (h & r & cmd & ok & -> & Hin).
      do 4 eexists. split; [done|]. by right.
Qed.

(** The geometry loop returns when every rect has four components. *)
Lemma apply_all_returns (l : list (Z * list Z * Z)) (st : Locals * Env) :
  Forall (λ m, length m.1.2 = 4) l → ∃ st', apply_all W l st = Ok st'.
Proof.
  intros Hl. revert st.
  induction Hl as [|[[hwnd rect] show_cmd] l Hrect _ IH]; intros st.
  { by eexists. }
  cbn [apply_all]. unfold _apply_geometry. simpl in Hrect.
  destruct rect as [|a [|b [|c [|d [|? ?]]]]]; try done.
  cbn [bind]. apply IH.
Qed.

End Geometry.

Section Pass.

Variable W : World.

Lemma no_failed_launch_detect (evs : list Event) :
  Forall (λ e, is_detect e = true) evs → failed_launches evs = 0.
Proof.
  intros H. apply failed_launches_none. eapply Forall_impl; [done|].
  by intros [[]| | | |].
Qed.

Lemma no_failed_launch_waiting (evs : list Event) :
  Forall (λ e, is_waiting e = true) evs → failed_launches evs = 0.
Proof.
  intros H. apply failed_launches_none. eapply Forall_impl; [done|].
  by intros [[]| | | |].
Qed.

(** The state at the end of the waiting phase. *)
Lemma match_windows_spec (fs : gmap string FileContent) (filepath : string)
    (open_timeout poll_interval : Z) (fuel : nat) (data : Session)
    (st : Locals * Env) :
  fs !! filepath = Some (Json data) →
  match_windows W fs filepath open_timeout poll_interval fuel = Ok st →
  ∃ t1 t2 t3,
    trace st.2 = t1 ++ t2 ++ t3
    ∧ Forall (λ e, is_detect e = true) t1
    ∧ Forall (launch_of W) t2
    ∧ Forall (λ e, is_waiting e = true) t3
    ∧ launched t2 = (λ t, t.1.1) <$> to_open st.1
    ∧ restored st.1 = 0
    ∧ skipped st.1 + length (to_restore st.1)
      = length (get_windows data) + failed_launches t2
    ∧ coherent st.
Proof.
  intros Hfile. unfold match_windows, load_session. rewrite Hfile.
  cbn [bind]. intros Hrun.
  destruct (classify_spec W (get_windows data) (locals0, env0))
    as (R1 & C1 & H1 & (t1 & T1 & F1) & _).
  set (st1 := classify W (get_windows data) (locals0, env0)) in *.
  destruct (launch_fold_spec W (to_open st1.1) st1)
    as (t2 & T2 & F2 & L2 & S2 & _).
  fold (launch_all W st1) in T2, S2.
  set (st2 := launch_all W st1) in *.
  apply wait_for_windows_spec in Hrun as (R3 & O3 & C3 & H3 & (t3 & T3 & F3)).
  exists t1, t2, t3. simpl in T1, C1, R1.
  split_and!; try done.
  - by rewrite T3, T2, T1, app_assoc.
  - by rewrite L2, O3, S2.
  - by rewrite R3, S2.
  - rewrite C3, S2. simpl. lia.
  - apply H3. rewrite (surjective_pairing st2).
    apply (coherent_frame st1.1 _ st1.2 _ t2); [|by rewrite S2..|done].
    rewrite <- surjective_pairing. apply H1, coherent_init.
Qed.

(** The state at the end of [restore_session]. *)
Lemma restore_run_spec (fs : gmap string FileContent) (filepath : string)
    (open_timeout poll_interval : Z) (fuel : nat) (data : Session)
    (st : Locals * Env) :
  fs !! filepath = Some (Json data) →
  restore_run W fs filepath open_timeout poll_interval fuel = Ok st →
  ∃ t1 t2 t3 t4,
    trace st.2 = (t1 ++ t2 ++ t3) ++ t4
    ∧ Forall (λ e, is_detect e = true) t1
    ∧ Forall (launch_of W) t2
    ∧ Forall (λ e, is_waiting e = true) t3
    ∧ Forall (geometry_on (hwnds (to_restore st.1))) t4
    ∧ launched t2 = (λ t, t.1.1) <$> to_open st.1
    ∧ restored st.1 + skipped st.1
      = length (get_windows data) + failed_launches t2
    ∧ (∀ h, h ∈ hwnds (to_restore st.1) →
            ∃ i, i < length (t1 ++ t2 ++ t3) ∧ found_at (t1 ++ t2 ++ t3) i h).
Proof.
  intros Hfile. unfold restore_run.
  destruct (match_windows W fs filepath open_timeout poll_interval fuel)
    as [st0| |] eqn:Ematch; [|done..].
  cbn [bind]. intros Hrun.
  destruct (match_windows_spec _ _ _ _ _ _ _ Hfile Ematch)
    as (t1 & t2 & t3 & T & F1 & F2 & F3 & L & R & C & (_ & _ & Hfound)).
  apply apply_all_spec in Hrun as (C4 & O4 & R4 & (t4 & T4 & F4)).
  exists t1, t2, t3, t4. rewrite R4, O4. split_and!; try done.
  - by rewrite T4, T.
  - rewrite C4. lia.
  - by rewrite <- T.
Qed.

End Pass.

Section Outcomes.

Lemma load_session_Ok (fs : gmap string FileContent) (filepath : string)
    (data : Session) :
  load_session fs filepath = Ok data ↔ fs !! filepath = Some (Json data).
Proof.
  unfold load_session. destruct (fs !! filepath) as [[s|]|]; naive_solver.
Qed.

Lemma match_windows_loaded (W : World) (fs : gmap string FileContent)
    (filepath : string) (open_timeout poll_interval : Z) (fuel : nat)
    (st : Locals * Env) :
  match_windows W fs filepath open_timeout poll_interval fuel = Ok st →
  ∃ data, fs !! filepath = Some (Json data).
Proof.
  unfold match_windows.
  destruct (load_session fs filepath) as [data| |] eqn:E; [|done..].
  apply load_session_Ok in E. eauto.
Qed.

Lemma restore_run_matched (W : World) (fs : gmap string FileContent)
    (filepath : string) (open_timeout poll_interval : Z) (fuel : nat)
    (st : Locals * Env) :
  restore_run W fs filepath open_timeout poll_interval fuel = Ok st →
  ∃ st0, match_windows W fs filepath open_timeout poll_interval fuel = Ok st0
         ∧ to_restore st.1 = to_restore st0.1.
Proof.
  unfold restore_run.
  destruct (match_windows _ _ _ _ _ _) as [st0| |]; [|done..].
  cbn [bind]. intros Hrun. exists st0. split; [done|].
  by apply apply_all_spec in Hrun as (_ & _ & ? & _).
Qed.

Lemma restore_session_run (W : World) (fs : gmap string FileContent)
    (filepath : string) (open_timeout poll_interval : Z) (fuel : nat)
    (r s : nat) :
  restore_session W fs filepath open_timeout poll_interval fuel = Ok (r, s) →
  ∃ st, restore_run W fs filepath open_timeout poll_interval fuel = Ok st
        ∧ restored st.1 = r ∧ skipped st.1 = s.
Proof.
  unfold restore_session.
  destruct (restore_run _ _ _ _ _ _) as [st| |]; [|done..].
  cbn [bind]. intros [= <- <-]. eauto.
Qed.

(** When every launch succeeds, no launch of the trace has failed. *)
Lemma launches_all_ok (W : World) (evs : list Event) :
  (∀ k p, popen W k p = true) →
  Forall (launch_of W) evs → failed_launches evs = 0.
Proof.
  intros Hok Hev. apply failed_launches_none.
  eapply Forall_impl; [done|]. intros e (k & p & ->). simpl. by rewrite Hok.
Qed.

End Outcomes.

Section GeometryCalls.

Variable W : World.

Lemma geometry_calls_app (a b : list Event) :
  geometry_calls (a ++ b) = geometry_calls a ++ geometry_calls b.
Proof. apply omap_app. Qed.

Lemma succeeded_app (a b : list Event) :
  succeeded (a ++ b) = succeeded a + succeeded b.
Proof. unfold succeeded. by rewrite filter_app, length_app. Qed.

Lemma succeeded_cons (e : Event) (evs : list Event) :
  succeeded (e :: evs) = (if is_success e then 1 else 0) + succeeded evs.
Proof.
  unfold succeeded. destruct (is_success e) eqn:E.
  - by rewrite filter_cons_True.
  - rewrite filter_cons_False; [done|]. by rewrite E.
Qed.

Lemma no_geometry_calls (evs : list Event) :
  Forall (λ e, is_geometry e = false) evs →
  geometry_calls evs = [] ∧ succeeded evs = 0.
Proof.
  unfold geometry_calls, succeeded.
  induction 1 as [|e evs He _ [IH1 IH2]]; [done|].
  fold (geometry_calls evs) in IH1. fold (succeeded evs) in IH2.
  fold (geometry_calls (e :: evs)). fold (succeeded (e :: evs)).
  rewrite succeeded_cons, IH2. by destruct e.
Qed.

(** The geometry loop makes one call per element of [l], in order, with
    the rect of the element and the command of its show state, and adds
    one to [restored] for each call that succeeds. *)
Lemma apply_all_calls (l : list (Z * list Z * Z)) (st st' : Locals * Env) :
  apply_all W l st = Ok st' →
  ∃ evs, trace st'.2 = trace st.2 ++ evs
         ∧ geometry_calls evs = call_of <$> l
         ∧ restored st'.1 = restored st.1 + succeeded evs
         ∧ Forall (λ m, length m.1.2 = 4) l.
Proof.
  revert st. induction l as [|[[hwnd rect] show_cmd] l IH]; intros [loc env].
  { simpl. intros [= <-]. exists []. rewrite app_nil_r.
    split_and!; try done; unfold succeeded; simpl; lia. }
  cbn [apply_all]. unfold _apply_geometry.
  destruct rect as [|a [|b [|c [|d [|? ?]]]]]; try done.
  cbn [bind fst snd]. intros Hrun.
  apply IH in Hrun as (evs & T & G & R & F). cbn [fst snd] in *.
  eexists (_ :: evs). split_and!.
  - rewrite T. simpl. by rewrite <- app_assoc.
  - simpl. by rewrite G.
  - rewrite R, succeeded_cons.
    destruct (win32gui _ _ _ _ _); simpl; lia.
  - by constructor.
Qed.

End GeometryCalls.

Section Counting.

Variable W : World.

(** The first loop counts the entries without a path as skipped and
    shares the others between [to_open] and [to_restore]. *)
Lemma classify_counts (windows : list Entry) (st : Locals * Env) :
  skipped (classify W windows st).1
  = skipped st.1 + (length windows - with_path windows)
  ∧ length (to_open (classify W windows st).1)
    + length (to_restore (classify W windows st).1)
    = length (to_open st.1) + length (to_restore st.1) + with_path windows
  ∧ with_path windows ≤ length windows.
Proof.
  unfold with_path. revert st.
  induction windows as [|w windows IH]; intros [l env].
  { simpl. split_and!; lia. }
  unfold classify in *. simpl.
  destruct (IH (classify_step W (l, env) w)) as (S & C & B).
  rewrite S, C. unfold classify_step. cbn [fst snd].
  destruct (String.eqb (e_path w) "") eqn:Epath.
  - apply String.eqb_eq in Epath. rewrite filter_cons_False by tauto.
    simpl. split_and!; lia.
  - apply String.eqb_neq in Epath. rewrite filter_cons_True by done.
    destruct ((find_window W AlreadyOpen (e_path w) (used_hwnds l) env).1);
      simpl; rewrite length_app; simpl; split_and!; lia.
Qed.

Lemma failed_launches_le (evs : list Event) :
  failed_launches evs ≤ length evs.
Proof. unfold failed_launches. apply length_filter. Qed.

Lemma launched_length (evs : list Event) :
  Forall (launch_of W) evs → length (launched evs) = length evs.
Proof.
  unfold launched. induction 1 as [|e evs (k & p & ->) _ IH]; [done|].
  simpl. f_equal. exact IH.
Qed.

(** The waiting phase only moves entries from [to_open] to the matched
    set. *)
Lemma wait_for_windows_matched (fuel : nat) (open_timeout poll_interval : Z)
    (st st' : Locals * Env) :
  wait_for_windows W fuel open_timeout poll_interval st = Ok st' →
  length (to_restore st'.1) ≤ length (to_open st.1) + length (to_restore st.1).
Proof.
  destruct st as [l env]. unfold wait_for_windows. cbn [fst snd].
  destruct (to_open l) as [|t ts] eqn:Eopen.
  { intros [= <-]. simpl. lia. }
  destruct (wait_loop W fuel _ poll_interval (t :: ts) _) as [r| |] eqn:Eloop;
    [|done..].
  cbn [bind]. intros [= <-].
  apply wait_loop_spec in Eloop as (_ & _ & _ & C & _).
  destruct r as [rem [l' env']]. cbn [fst snd] in *. rewrite skip_all.
  simpl in *. lia.
Qed.

Lemma succeeded_le (evs : list Event) :
  succeeded evs ≤ length (geometry_calls evs).
Proof.
  induction evs as [|e evs IH]; [done|].
  rewrite succeeded_cons.
  change (e :: evs) with ([e] ++ evs).
  rewrite geometry_calls_app, length_app.
  destruct e as [| | | |h rect cmd []]; simpl; lia.
Qed.

(** At the end of the waiting phase neither [to_open] nor the matched
    set has more elements than the snapshot has entries with a path. *)
Lemma match_windows_partition (fs : gmap string FileContent)
    (filepath : string) (open_timeout poll_interval : Z) (fuel : nat)
    (data : Session) (st : Locals * Env) :
  fs !! filepath = Some (Json data) →
  match_windows W fs filepath open_timeout poll_interval fuel = Ok st →
  length (to_open st.1) ≤ with_path (get_windows data)
  ∧ length (to_restore st.1) ≤ with_path (get_windows data).
Proof.
  intros Hfile. unfold match_windows, load_session. rewrite Hfile.
  cbn [bind]. intros Hrun.
  destruct (classify_counts (get_windows data) (locals0, env0)) as (_ & C1 & _).
  set (st1 := classify W (get_windows data) (locals0, env0)) in *.
  destruct (launch_fold_spec W (to_open st1.1) st1) as (t2 & _ & _ & _ & S2 & _).
  fold (launch_all W st1) in S2.
  set (st2 := launch_all W st1) in *.
  pose proof (wait_for_windows_matched _ _ _ _ _ Hrun) as Hm.
  apply wait_for_windows_spec in Hrun as (_ & O & _).
  rewrite O. rewrite S2 in Hm |- *. simpl in *. lia.
Qed.

End Counting.

(** X18: the accounting of a pass: the two counts add up to the number
    of entries plus the number of failed launches of its trace. *)
Lemma restore_run_accounting (W : World) (fs : gmap string FileContent)
    (filepath : string) (open_timeout poll_interval : Z) (fuel : nat)
    (data : Session) (st : Locals * Env) :
  fs !! filepath = Some (Json data) →
  restore_run W fs filepath open_timeout poll_interval fuel = Ok st →
  restored st.1 + skipped st.1
  = length (get_windows data) + failed_launches (trace st.2).
Proof.
  intros Hfile Hrun.
  destruct (restore_run_spec W _ _ _ _ _ _ _ Hfile Hrun)
    as (t1 & t2 & t3 & t4 & T & F1 & F2 & F3 & F4 & _ & C & _).
  rewrite C, T, !failed_launches_app.
  rewrite (no_failed_launch_detect t1), (no_failed_launch_waiting t3) by done.
  rewrite (failed_launches_none t4); [lia|].
  eapply Forall_impl; [done|]. by intros e (h & rect & cmd & ok & -> & _).
Qed.

(** C1, as stated, fails: an entry with an empty path is counted in
    [skipped].  The session [blank_session] has one entry, with an empty
    path; the pass returns [(0, 1)] while no entry has a non-empty path. *)
Lemma restore_session_counts_empty_paths :
  ¬ (∀ (W : World) (fs : gmap string FileContent) (filepath : string)
       (data : Session) (open_timeout poll_interval : Z) (fuel r s : nat),
       fs !! filepath = Some (Json data) →
       restore_session W fs filepath open_timeout poll_interval fuel
         = Ok (r, s) →
       r + s = length (filter (λ w, e_path w ≠ "") (get_windows data))).
Proof.
  intros Hclaim.
  specialize (Hclaim quiet_world blank_dir "Work.json" blank_session
                2%Z 1%Z 5 0 1 eq_refl eq_refl).
  vm_compute in Hclaim. discriminate.
Qed.

(** C1, amended: in a pass in which every launch request succeeds, the
    returned counts add up to the number of entries of the snapshot,
    the entries with an empty path included; [restored] is at most the
    number of entries with a path, so that [skipped] is at least the
    number of entries with an empty path: no such entry is counted as
    restored. *)
Theorem restore_session_accounts_every_entry (W : World)
    (fs : gmap string FileContent) (filepath : string) (data : Session)
    (open_timeout poll_interval : Z) (fuel r s : nat) :
  fs !! filepath = Some (Json data) →
  (∀ k p, popen W k p = true) →
  restore_session W fs filepath open_timeout poll_interval fuel = Ok (r, s) →
  r + s = length (get_windows data)
  ∧ r ≤ with_path (get_windows data)
  ∧ length (get_windows data) - with_path (get_windows data) ≤ s.
Proof.
  intros Hfile Hok Hret.
  apply restore_session_run in Hret as (st & Hrun & <- & <-).
  destruct (restore_run_spec W _ _ _ _ _ _ _ Hfile Hrun)
    as (t1 & t2 & t3 & t4 & _ & _ & F2 & _ & _ & _ & C & _).
  rewrite (launches_all_ok W t2) in C by done.
  unfold restore_run in Hrun.
  destruct (match_windows W fs filepath open_timeout poll_interval fuel)
    as [st0| |] eqn:Ematch; [|done..].
  cbn [bind] in Hrun.
  destruct (match_windows_spec W _ _ _ _ _ _ _ Hfile Ematch)
    as (_ & _ & _ & _ & _ & _ & _ & _ & R0 & _).
  destruct (match_windows_partition W _ _ _ _ _ _ _ Hfile Ematch) as [_ Hr].
  apply apply_all_calls in Hrun as (evs & _ & G & R & _).
  assert (Hs : succeeded evs ≤ length (to_restore st0.1)).
  { etrans; [apply succeeded_le|]. by rewrite G, length_fmap. }
  lia.
Qed.

Lemma restore_session_accounts_every_entry_witness :
  2 + 2 = length (get_windows work_session)
  ∧ 2 ≤ with_path (get_windows work_session)
  ∧ length (get_windows work_session) - with_path (get_windows work_session)
    ≤ 2.
Proof.
  apply (restore_session_accounts_every_entry busy_world work_dir "Work.json"
           work_session 5%Z 1%Z 10 2 2).
  - reflexivity.
  - intros k p. reflexivity.
  - vm_compute. reflexivity.
Defined.

(** C2, on the failing input: the only entry of [one_session] needs a
    launch and the launch fails.  The entry is counted as skipped at the
    launch, is polled for in the waiting phase and is counted as skipped
    again when the deadline has passed: the pass returns [(0, 2)] for a
    snapshot of one entry. *)
Theorem launch_failure_counted_twice :
  restore_session failing_launcher one_dir "Work.json" 2%Z 1%Z 5 = Ok (0, 2)
  ∧ restore_trace failing_launcher one_dir "Work.json" 2%Z 1%Z 5
    = Ok [EvFind AlreadyOpen "C:\A" None; EvLaunch "C:\A" false;
          EvTime 0; EvTime 1; EvFind Polling "C:\A" None;
          EvSleep 1; EvTime 2].
Proof. split; by vm_compute. Qed.

(** C3: at the end of the matching phases the handles of the matched
    set are pairwise distinct and the claimed set is exactly the set of
    these handles, because the window search never returns a handle of
    the claimed set; the geometry loop leaves the matched set as it is. *)
Theorem matched_handles_distinct (W : World) (fs : gmap string FileContent)
    (filepath : string) (open_timeout poll_interval : Z) (fuel : nat) :
  (∀ shell path used h,
     _find_window_by_path shell path used = Some h → h ∉ used)
  ∧ (∀ st,
       match_windows W fs filepath open_timeout poll_interval fuel = Ok st →
       NoDup (hwnds (to_restore st.1))
       ∧ used_hwnds st.1 = list_to_set (hwnds (to_restore st.1)))
  ∧ (∀ st,
       restore_run W fs filepath open_timeout poll_interval fuel = Ok st →
       NoDup (hwnds (to_restore st.1))).
Proof.
  assert (Hmatch : ∀ st,
    match_windows W fs filepath open_timeout poll_interval fuel = Ok st →
    NoDup (hwnds (to_restore st.1))
    ∧ used_hwnds st.1 = list_to_set (hwnds (to_restore st.1))).
  { intros st Hrun.
    destruct (match_windows_loaded _ _ _ _ _ _ _ Hrun) as [data Hfile].
    destruct (match_windows_spec W _ _ _ _ _ _ _ Hfile Hrun)
      as (_ & _ & _ & _ & _ & _ & _ & _ & _ & _ & Hused & Hnd & _).
    done. }
  split_and!.
  - apply _find_window_by_path_unused.
  - exact Hmatch.
  - intros st Hrun.
    apply restore_run_matched in Hrun as (st0 & Hrun0 & ->).
    by apply Hmatch.
Qed.

Lemma matched_handles_distinct_witness :
  ∃ st, match_windows busy_world work_dir "Work.json" 5%Z 1%Z 10 = Ok st
        ∧ hwnds (to_restore st.1) = [101; 202]%Z
        ∧ NoDup (hwnds (to_restore st.1)).
Proof.
  destruct (match_windows busy_world work_dir "Work.json" 5%Z 1%Z 10)
    as [st| |] eqn:Erun.
  - exists st. split_and!; [done| |].
    + assert (Hh : (st0 <- match_windows busy_world work_dir "Work.json"
                             5%Z 1%Z 10 ;; Ok (hwnds (to_restore st0.1)))
                   = Ok [101; 202]%Z) by (by vm_compute).
      rewrite Erun in Hh. by injection Hh.
    + destruct (matched_handles_distinct busy_world work_dir "Work.json"
                  5%Z 1%Z 10) as (_ & Hmatch & _).
      by apply Hmatch.
  - by vm_compute in Erun.
  - by vm_compute in Erun.
Defined.

Section Order.

Lemma lookup_app_before {A} (P : A → bool) (a b : list A) (i : nat) (e : A) :
  (a ++ b) !! i = Some e → P e = true →
  Forall (λ x, P x = false) b → i < length a.
Proof.
  intros Hi HP Hb. destruct (decide (i < length a)) as [|Hge]; [done|].
  rewrite lookup_app_r in Hi by lia.
  eapply Forall_lookup_1 in Hb; [|done]. congruence.
Qed.

Lemma lookup_app_after {A} (P : A → bool) (a b : list A) (j : nat) (e : A) :
  (a ++ b) !! j = Some e → P e = true →
  Forall (λ x, P x = false) a → length a ≤ j.
Proof.
  intros Hj HP Ha. destruct (decide (length a ≤ j)) as [|Hlt]; [done|].
  rewrite lookup_app_l in Hj by lia.
  eapply Forall_lookup_1 in Ha; [|done]. congruence.
Qed.

Lemma launched_app (a b : list Event) :
  launched (a ++ b) = launched a ++ launched b.
Proof. apply omap_app. Qed.

Lemma launched_none (evs : list Event) :
  Forall (λ e, is_launch e = false) evs → launched evs = [].
Proof.
  unfold launched. induction 1 as [|e evs He _ IH]; [done|].
  by destruct e.
Qed.

End Order.

(** C9: in the trace of a pass, every launch request comes before every
    event of the waiting phase (clock reading, polling search, sleep),
    the launch requests are those of the needs-launch entries in their
    order, and every geometry call is on a handle of the matched set,
    which an earlier window search of the same trace has returned; no
    search, launch or clock reading follows a geometry call. *)
Theorem restore_order (W : World) (fs : gmap string FileContent)
    (filepath : string) (open_timeout poll_interval : Z) (fuel : nat)
    (st : Locals * Env) :
  restore_run W fs filepath open_timeout poll_interval fuel = Ok st →
  let tr := trace st.2 in
  (∀ i j e e', tr !! i = Some e → is_launch e = true →
               tr !! j = Some e' → is_waiting e' = true → i < j)
  ∧ launched tr = (λ t, t.1.1) <$> to_open st.1
  ∧ (∀ j h rect cmd ok,
       tr !! j = Some (EvGeometry h rect cmd ok) →
       h ∈ hwnds (to_restore st.1) ∧ ∃ i, i < j ∧ found_at tr i h)
  ∧ (∀ i j e e', tr !! i = Some e → is_geometry e = false →
                 tr !! j = Some e' → is_geometry e' = true → i < j).
Proof.
  intros Hrun tr.
  assert (∃ data, fs !! filepath = Some (Json data)) as [data Hfile].
  { apply restore_run_matched in Hrun as (st0 & Hrun0 & _).
    by eapply match_windows_loaded. }
  destruct (restore_run_spec W _ _ _ _ _ _ _ Hfile Hrun)
    as (t1 & t2 & t3 & t4 & T & F1 & F2 & F3 & F4 & L & _ & Hfound).
  fold tr in T.
  assert (Hpre : ∀ i e, tr !! i = Some e → is_geometry e = false →
                        i < length (t1 ++ t2 ++ t3)).
  { intros i e Hi He. rewrite T in Hi.
    destruct (decide (i < length (t1 ++ t2 ++ t3))) as [|Hge]; [done|].
    rewrite lookup_app_r in Hi by lia.
    eapply Forall_lookup_1 in F4; [|done].
    by destruct F4 as (? & ? & ? & ? & -> & _). }
  assert (Hpost : ∀ j e, tr !! j = Some e → is_geometry e = true →
                         length (t1 ++ t2 ++ t3) ≤ j).
  { intros j e Hj He. rewrite T in Hj.
    eapply (lookup_app_after is_geometry); [done..|]. by_phase. }
  split_and!.
  - intros i j e e' Hi He Hj He'.
    assert (i < length (t1 ++ t2)).
    { rewrite T, (app_assoc t1 t2 t3), <- (app_assoc (t1 ++ t2)) in Hi.
      eapply (lookup_app_before is_launch); [done..|]. by_phase. }
    assert (length (t1 ++ t2) ≤ j); [|lia].
    rewrite T, (app_assoc t1 t2 t3), <- (app_assoc (t1 ++ t2)) in Hj.
    eapply (lookup_app_after is_waiting); [done..|]. by_phase.
  - rewrite T, !launched_app.
    rewrite (launched_none t1), (launched_none t3), (launched_none t4)
      by by_phase.
    simpl. by rewrite !app_nil_r.
  - intros j h rect cmd ok Hj.
    pose proof (Hpost _ _ Hj eq_refl) as Hge.
    assert (Hin : h ∈ hwnds (to_restore st.1)).
    { rewrite T, lookup_app_r in Hj by done.
      eapply Forall_lookup_1 in F4; [|done].
      destruct F4 as (? & ? & ? & ? & [=] & Hin). by subst. }
    split; [done|].
    destruct (Hfound h Hin) as (i & Hi & site & p & Hev).
    exists i. split; [lia|]. exists site, p. rewrite T. by rewrite lookup_app_l.
  - intros i j e e' Hi He Hj He'.
    pose proof (Hpre _ _ Hi He). pose proof (Hpost _ _ Hj He'). lia.
Qed.

(** The same order holds at the end of the waiting phase, whatever the
    geometry loop does afterwards: every launch request comes before
    every event of the waiting phase and no geometry call has been made
    yet. *)
Lemma match_windows_order (W : World) (fs : gmap string FileContent)
    (filepath : string) (open_timeout poll_interval : Z) (fuel : nat)
    (st : Locals * Env) :
  match_windows W fs filepath open_timeout poll_interval fuel = Ok st →
  let tr := trace st.2 in
  (∀ i j e e', tr !! i = Some e → is_launch e = true →
               tr !! j = Some e' → is_waiting e' = true → i < j)
  ∧ Forall (λ e, is_geometry e = false) tr.
Proof.
  intros Hrun tr.
  destruct (match_windows_loaded _ _ _ _ _ _ _ Hrun) as [data Hfile].
  destruct (match_windows_spec W _ _ _ _ _ _ _ Hfile Hrun)
    as (t1 & t2 & t3 & T & F1 & F2 & F3 & _).
  fold tr in T. split.
  - intros i j e e' Hi He Hj He'.
    rewrite T, app_assoc in Hi, Hj.
    assert (i < length (t1 ++ t2)).
    { eapply (lookup_app_before is_launch); [done..|]. by_phase. }
    assert (length (t1 ++ t2) ≤ j); [|lia].
    eapply (lookup_app_after is_waiting); [done..|]. by_phase.
  - rewrite T. by_phase.
Qed.

Section NoLiveWindow.

Variable W : World.
Variable paths : list string.
Hypothesis Hnever : never_live W paths.

(** With no window to find, the waiting loop ends as soon as a clock
    reading reaches the deadline, and leaves [remaining] and the locals
    as they were. *)
Lemma wait_loop_never_live (deadline poll_interval : Z) (n : nat) :
  ∀ (fuel : nat) (remaining : list (string * list Z * Z)) (st : Locals * Env),
    Forall (λ t, t.1.1 ∈ paths) remaining →
    (deadline ≤ time_time W (time_calls st.2 + n))%Z →
    n ≤ fuel →
    n = 0 ∨ (0 ≤ poll_interval)%Z →
    ∃ env', wait_loop W fuel deadline poll_interval remaining st
            = Ok (remaining, (st.1, env')).
Proof.
  induction n as [|n IH];
    intros fuel remaining [l env] Hin Hclock Hfuel Hpoll.
  - destruct remaining as [|t ts].
    { exists env. by destruct fuel. }
    simpl in Hclock. rewrite Nat.add_0_r in Hclock.
    exists (read_clock W env).2.
    destruct fuel; simpl;
      (destruct (_ <? _)%Z eqn:E; [apply Z.ltb_lt in E; lia|done]).
  - destruct remaining as [|t ts].
    { exists env. by destruct fuel. }
    destruct fuel as [|fuel]; [lia|].
    cbn [wait_loop fst snd].
    destruct (_ <? _)%Z eqn:E; [|by eexists].
    set (rem0 := t :: ts) in *.
    set (st1 := (l, (read_clock W env).2)).
    destruct (poll_round_never_live W paths (length rem0) rem0 st1 Hnever Hin)
      as [Hrem Hloc].
    destruct (poll_round_spec W (length rem0) rem0 st1)
      as (_ & _ & _ & _ & _ & _ & K).
    destruct (poll_round W (length rem0) rem0 st1) as [rem1 [l1 env1]].
    cbn [fst snd] in *. subst rem1 l1 rem0.
    assert (Hsleep : (poll_interval <? 0)%Z = false).
    { apply Z.ltb_ge. by destruct Hpoll. }
    unfold sleep. rewrite Hsleep.
    apply IH.
    + done.
    + simpl. rewrite K. simpl in *.
      match goal with
      | |- (_ ≤ time_time W ?a)%Z =>
          by replace a with (time_calls env + S n) by lia
      end.
    + lia.
    + right. by destruct Hpoll.
Qed.

Lemma wait_for_windows_never_live (poll_interval : Z) (k fuel : nat)
    (st : Locals * Env) :
  Forall (λ t, t.1.1 ∈ paths) (to_open st.1) →
  time_calls st.2 = 0 →
  0 < k → (time_time W 0 ≤ time_time W k)%Z → k ≤ fuel →
  k = 1 ∨ (0 ≤ poll_interval)%Z →
  ∃ env', wait_for_windows W fuel 0 poll_interval st
          = Ok (set_skipped (skipped st.1 + length (to_open st.1)) st.1, env').
Proof.
  destruct st as [l env]. cbn [fst snd]. intros Hin Htc Hk Hclock Hfuel Hpoll.
  unfold wait_for_windows. cbn [fst snd].
  destruct (to_open l) as [|t ts] eqn:Eopen.
  { exists env. simpl. by rewrite Nat.add_0_r, set_skipped_id. }
  destruct (wait_loop_never_live ((read_clock W env).1 + 0) poll_interval
              (k - 1) fuel (t :: ts) (l, (read_clock W env).2))
    as [env' Hloop].
  - done.
  - simpl. rewrite Htc, Z.add_0_r.
    by replace (S (0 + (k - 1))) with k by lia.
  - lia.
  - destruct Hpoll; [left; lia|by right].
  - rewrite Hloop. cbn [bind fst snd]. exists env'. by rewrite skip_all.
Qed.

End NoLiveWindow.



(** * Termination: the pass returns *)

Section Returns.

Variable W : World.

Lemma classify_rects (windows : list Entry) (st : Locals * Env) :
  Forall (λ w, length (e_rect w) = 4) windows →
  Forall (λ t, length t.1.2 = 4) (to_open st.1) →
  Forall (λ m, length m.1.2 = 4) (to_restore st.1) →
  Forall (λ t, length t.1.2 = 4) (to_open (classify W windows st).1)
  ∧ Forall (λ m, length m.1.2 = 4) (to_restore (classify W windows st).1).
Proof.
  intros Hws. revert st.
  induction Hws as [|w windows Hw _ IH]; intros [l env] Ho Hr; [done|].
  unfold classify in *. simpl. apply IH; unfold classify_step; simpl.
  - destruct (String.eqb _ _); [done|].
    destruct (_find_window_by_path _ _ _); simpl; [done|].
    apply Forall_app. split; [done|]. by constructor.
  - destruct (String.eqb _ _); [done|].
    destruct (_find_window_by_path _ _ _); simpl; [|done].
    apply Forall_app. split; [done|]. by constructor.
Qed.

Lemma poll_round_rects (i : nat) (remaining : list (string * list Z * Z))
    (st : Locals * Env) :
  Forall (λ t, length t.1.2 = 4) remaining →
  Forall (λ m, length m.1.2 = 4) (to_restore st.1) →
  Forall (λ t, length t.1.2 = 4) (poll_round W i remaining st).1
  ∧ Forall (λ m, length m.1.2 = 4) (to_restore (poll_round W i remaining st).2.1).
Proof.
  revert remaining st.
  induction i as [|i IH]; intros remaining [l env] Hrem Hr; simpl; [done|].
  destruct (remaining !! i) as [[[path rect] show_cmd]|] eqn:Elook; [|done].
  simpl. destruct (_find_window_by_path _ _ _) as [hwnd|].
  - apply IH; [by apply Forall_delete|]. simpl.
    apply Forall_app. split; [done|]. constructor; [|done].
    eapply Forall_lookup_1 in Hrem; [|exact Elook]. exact Hrem.
  - by apply IH.
Qed.

(** The index of [poll_round] stays in range: the look-up of an
    iteration succeeds and the next iteration starts in range again,
    whether the element is popped or kept. *)
Lemma poll_round_index_in_range {A} (i : nat) (remaining : list A) :
  S i ≤ length remaining →
  is_Some (remaining !! i) ∧ i ≤ length (delete i remaining)
  ∧ i ≤ length remaining.
Proof.
  intros Hi. assert (is_Some (remaining !! i)) as Hsome.
  { apply lookup_lt_is_Some. lia. }
  split_and!; [done| |lia]. rewrite length_delete by done. lia.
Qed.

(** The waiting loop ends once a clock reading has reached the
    deadline: [n] more readings, hence [n] units of fuel, are enough. *)
Lemma wait_loop_returns (deadline poll_interval : Z) (n : nat) :
  ∀ (fuel : nat) (remaining : list (string * list Z * Z)) (st : Locals * Env),
    Forall (λ t, length t.1.2 = 4) remaining →
    Forall (λ m, length m.1.2 = 4) (to_restore st.1) →
    (deadline ≤ time_time W (time_calls st.2 + n))%Z →
    n ≤ fuel →
    (0 ≤ poll_interval)%Z →
    ∃ r, wait_loop W fuel deadline poll_interval remaining st = Ok r
         ∧ Forall (λ m, length m.1.2 = 4) (to_restore r.2.1).
Proof.
  induction n as [|n IH];
    intros fuel remaining [l env] Hrem Hr Hclock Hfuel Hpoll.
  - destruct remaining as [|t ts].
    { exists ([], (l, env)). by destruct fuel. }
    simpl in Hclock. rewrite Nat.add_0_r in Hclock.
    exists (t :: ts, (l, (read_clock W env).2)).
    destruct fuel; simpl;
      (destruct (_ <? _)%Z eqn:E; [apply Z.ltb_lt in E; lia|done]).
  - destruct remaining as [|t ts].
    { exists ([], (l, env)). by destruct fuel. }
    destruct fuel as [|fuel]; [lia|].
    cbn [wait_loop fst snd].
    destruct (_ <? _)%Z eqn:E; [|by eexists].
    set (rem0 := t :: ts) in *.
    set (st1 := (l, (read_clock W env).2)).
    destruct (poll_round_rects (length rem0) rem0 st1 Hrem Hr) as [Hrem1 Hr1].
    destruct (poll_round_spec W (length rem0) rem0 st1)
      as (_ & _ & _ & _ & _ & _ & K).
    destruct (poll_round W (length rem0) rem0 st1) as [rem1 [l1 env1]].
    cbn [fst snd] in *.
    assert (Hnext : ∀ env2, time_calls env2 = S (time_calls env) →
              (deadline ≤ time_time W (time_calls env2 + n))%Z).
    { intros env2 ->.
      by replace (S (time_calls env) + n) with (time_calls env + S n) by lia. }
    destruct rem1 as [|t1 rem1].
    + apply IH; [done|done|by apply Hnext|lia|done].
    + unfold sleep. rewrite (proj2 (Z.ltb_ge poll_interval 0) Hpoll).
      apply IH; [done|done|by apply Hnext|lia|done].
Qed.


End Returns.

(** * Worked examples *)

Example safe_name_example :
  @safe_name ascii_classes " Work: day/1? " = "Work day1".
Proof. reflexivity. Qed.

Example get_all_explorer_windows_example :
  get_all_explorer_windows desktop
  = [ {| w_path := "C:\A"; w_hwnd := 101; w_rect := [0; 0; 800; 600]%Z;
         w_show_cmd := 1 |};
      {| w_path := "C:\B"; w_hwnd := 202; w_rect := [0; 0; 800; 600]%Z;
         w_show_cmd := 1 |};
      {| w_path := "C:\A"; w_hwnd := 303; w_rect := [10; 20; 100; 200]%Z;
         w_show_cmd := 1 |} ].
Proof. reflexivity. Qed.

Example save_session_example :
  let r := @save_session ascii_classes ∅ desktop stamp (Some "Work") in
  r.2 = "Work.json"
  ∧ load_session r.1 "Work.json"
    = Ok {| s_name := Some "Work"; s_saved_at := Some "2025-10-03T15:52:01";
            s_windows := Some [entry "C:\A" 1; entry "C:\B" 1] |}.
Proof. split; by vm_compute. Qed.

Example save_session_unnamed_example :
  (@save_session ascii_classes ∅ desktop stamp None).2
  = "session_20251003_155201.json".
Proof. by vm_compute. Qed.

Example list_sessions_example :
  list_sessions tabs_dir
  = [ {| sm_filepath := "Tabs.json"; sm_name := "Work";
         sm_saved_at := "2025-10-03T15:52:01";
         window_count := 2; tab_count := 3 |} ].
Proof. by vm_compute. Qed.

Example restore_session_example :
  restore_session busy_world work_dir "Work.json" 5%Z 1%Z 10 = Ok (2, 2).
Proof. by vm_compute. Qed.

Example restore_session_missing_file :
  restore_session busy_world work_dir "Gone.json" 5%Z 1%Z 10
  = Raise FileNotFoundError.
Proof. by vm_compute. Qed.

Example restore_session_out_of_fuel :
  restore_session busy_world work_dir "Work.json" 5%Z 1%Z 2 = OutOfFuel.
Proof. by vm_compute. Qed.

(** * The theorems at concrete inputs *)

Lemma remove_path_from_session_spec_witness :
  (∃ fs', remove_path_from_session one_dir "Work.json" "C:\A" = Ok (fs', false)
          ∧ fs' = delete "Work.json" one_dir
          ∧ load_session fs' "Work.json" = Raise FileNotFoundError)
  ∧ (∃ fs' data',
       remove_path_from_session tabs_dir "Tabs.json" "C:\A" = Ok (fs', true)
       ∧ fs' = <["Tabs.json" := Json data']> tabs_dir
       ∧ load_session fs' "Tabs.json" = Ok data'
       ∧ s_windows data' = Some [entry "C:\B" 1]
       ∧ get_windows data' = [entry "C:\B" 1]
       ∧ s_name data' = Some "Work"
       ∧ s_saved_at data' = Some "2025-10-03T15:52:01"
       ∧ (∀ w, w ∈ get_windows data' ↔
               w ∈ get_windows tabs_session ∧ e_path w ≠ "C:\A")
       ∧ get_windows data' `sublist_of` get_windows tabs_session).
Proof.
  split.
  - apply (remove_path_from_session_spec one_dir "Work.json" "C:\A"
             one_session); reflexivity.
  - apply (remove_path_from_session_spec tabs_dir "Tabs.json" "C:\A"
             tabs_session); [reflexivity|discriminate].
Defined.

Lemma add_path_to_session_spec_witness :
  (add_path_to_session tabs_dir "Tabs.json" "C:\B" None None
     = Ok (tabs_dir, false)
   ∧ load_session tabs_dir "Tabs.json" = Ok tabs_session)
  ∧ (∃ fs' data',
       add_path_to_session tabs_dir "Tabs.json" "C:\C" None (Some 3%Z)
         = Ok (fs', true)
       ∧ fs' = <["Tabs.json" := Json data']> tabs_dir
       ∧ load_session fs' "Tabs.json" = Ok data'
       ∧ s_windows data'
         = Some [entry "C:\A" 1; entry "C:\A" 3; entry "C:\B" 1;
                 {| e_path := "C:\C"; e_rect := [100; 100; 1000; 600]%Z;
                    e_show_cmd := 3 |}]
       ∧ get_windows data'
         = [entry "C:\A" 1; entry "C:\A" 3; entry "C:\B" 1;
            {| e_path := "C:\C"; e_rect := [100; 100; 1000; 600]%Z;
               e_show_cmd := 3 |}]
       ∧ s_name data' = Some "Work"
       ∧ s_saved_at data' = Some "2025-10-03T15:52:01").
Proof.
  split.
  - apply (add_path_to_session_spec tabs_dir "Tabs.json" "C:\B" None None
             tabs_session); [reflexivity|].
    apply (bool_decide_unpack _). reflexivity.
  - apply (add_path_to_session_spec tabs_dir "Tabs.json" "C:\C" None
             (Some 3%Z) tabs_session); [reflexivity|].
    apply (bool_decide_unpack _). reflexivity.
Defined.

Lemma list_sessions_counts_witness :
  (∃ sm, sm ∈ list_sessions tabs_dir
         ∧ sm_filepath sm = "Tabs.json"
         ∧ window_count sm = 2
         ∧ tab_count sm = 3)
  ∧ window_count (summary_of "Tabs.json" tabs_session)
    ≤ tab_count (summary_of "Tabs.json" tabs_session).
Proof.
  split.
  - apply (proj1 (list_sessions_counts tabs_dir) "Tabs.json" tabs_session);
      reflexivity.
  - apply (proj2 (list_sessions_counts tabs_dir)).
    assert (Hlist : list_sessions tabs_dir
                    = [summary_of "Tabs.json" tabs_session]) by (by vm_compute).
    rewrite Hlist. by left.
Defined.

Lemma restore_order_witness :
  ∃ st, restore_run busy_world work_dir "Work.json" 5%Z 1%Z 10 = Ok st
        ∧ launched (trace st.2) = ["C:\B"; "C:\C"]
        ∧ (∀ j h rect cmd ok,
             trace st.2 !! j = Some (EvGeometry h rect cmd ok) →
             h ∈ hwnds (to_restore st.1)
             ∧ ∃ i, i < j ∧ found_at (trace st.2) i h).
Proof.
  destruct (restore_run busy_world work_dir "Work.json" 5%Z 1%Z 10)
    as [st| |] eqn:Erun.
  - exists st.
    destruct (restore_order busy_world work_dir "Work.json" 5%Z 1%Z 10 st Erun)
      as (_ & Hlaunched & Hgeometry & _).
    split_and!; [done| |done].
    assert (Hl : (st0 <- restore_run busy_world work_dir "Work.json"
                           5%Z 1%Z 10 ;; Ok (launched (trace st0.2)))
                 = Ok ["C:\B"; "C:\C"]) by (by vm_compute).
    rewrite Erun in Hl. by injection Hl.
  - by vm_compute in Erun.
  - by vm_compute in Erun.
Defined.

Lemma save_session_key_collision_witness :
  (let second := payload_of (Some "ab ") stamp [] in
   let r1 := @save_session ascii_classes ∅ desktop stamp (Some " a/b") in
   let r2 := @save_session ascii_classes r1.1 [] stamp (Some "ab ") in
   r1.2 = "ab.json" ∧ r2.2 = "ab.json"
   ∧ r2.1 = <["ab.json" := Json second]> ∅
   ∧ r2.1 = (@save_session ascii_classes ∅ [] stamp (Some "ab ")).1
   ∧ load_session r2.1 "ab.json" = Ok second
   ∧ s_name second = Some "ab ")
  ∧ (@save_session ascii_classes ∅ desktop stamp (Some "?*<>|")).2 = ".json".
Proof.
  split.
  - apply (proj1 (save_session_key_collision ascii_classes) ∅ desktop []
             stamp stamp " a/b" "ab " ["a"; "b"]%char);
      [discriminate|discriminate| |].
    + exists [" "%char], []. split_and!; try done. by repeat constructor.
    + exists [], [" "%char]. split_and!; try done. by repeat constructor.
  - apply (proj2 (save_session_key_collision ascii_classes) ∅ desktop
             "?*<>|" stamp); [discriminate|].
    intros c Hc.
    repeat (apply elem_of_cons in Hc as [->|Hc];
            [by intros [?|[?|[?|?]]]|]).
    by apply elem_of_nil in Hc.
Defined.

Lemma save_session_dedup_first_seen_witness :
  let windows := get_all_explorer_windows desktop in
  let r := @save_session ascii_classes ∅ desktop stamp (Some "Work") in
  ∃ payload es,
    r.1 !! r.2 = Some (Json payload)
    ∧ s_windows payload = Some es
    ∧ NoDup (e_path <$> es)
    ∧ (∀ p, p ∈ e_path <$> es ↔ p ∈ w_path <$> windows)
    ∧ (∀ i e, es !! i = Some e →
         ∃ k w, list_find (λ w, w_path w = e_path e) windows = Some (k, w)
                ∧ e_rect e = w_rect w ∧ e_show_cmd e = w_show_cmd w)
    ∧ (∀ i1 i2 e1 e2 k1 k2 w1 w2,
         es !! i1 = Some e1 → es !! i2 = Some e2 → i1 < i2 →
         list_find (λ w, w_path w = e_path e1) windows = Some (k1, w1) →
         list_find (λ w, w_path w = e_path e2) windows = Some (k2, w2) →
         k1 < k2).
Proof.
  exact (save_session_dedup_first_seen ascii_classes ∅ desktop stamp
           (Some "Work")).
Defined.

(** * Further properties of the Snapshot Store *)

Section ListingMore.

(** The listing holds exactly the summaries of the parsed [.json] files. *)
Lemma list_sessions_elem (fs : gmap string FileContent) (sm : Summary) :
  sm ∈ list_sessions fs ↔
  ∃ filename data, fs !! filename = Some (Json data)
                   ∧ endswith filename ".json" = true
                   ∧ sm = summary_of filename data.
Proof.
  rewrite elem_of_list_sessions. unfold list_one, load_session. split.
  - intros (filename & _ & Hone). exists filename.
    destruct (endswith filename ".json"); [|done].
    destruct (fs !! filename) as [[data|]|]; simplify_eq. eauto.
  - intros (filename & data & Hfile & Hjson & ->). exists filename.
    rewrite Hjson, Hfile. eauto.
Qed.

Lemma NoDup_omap_key {A B} (f : A → option B) (g : B → A) (l : list A) :
  (∀ x y, f x = Some y → g y = x) → NoDup l → NoDup (g <$> omap f l).
Proof.
  intros Hkey. induction 1 as [|x l Hx _ IH]; simpl; [constructor|].
  destruct (f x) as [y|] eqn:E; [|done].
  simpl. constructor; [|done].
  rewrite (Hkey x y E). intros Hin. apply Hx.
  apply list_elem_of_fmap in Hin as (y' & -> & Hy').
  apply list_elem_of_omap in Hy' as (x' & Hx' & E').
  by rewrite (Hkey x' y' E').
Qed.

Lemma list_one_filepath (fs : gmap string FileContent) (filename : string)
    (sm : Summary) :
  list_one fs filename = Some sm → sm_filepath sm = filename.
Proof.
  unfold list_one. destruct (endswith _ _); [|done].
  destruct (load_session fs filename); [|done..]. by intros [= <-].
Qed.

Lemma insert_desc_sorted (x : Summary) (l : list Summary) :
  Sorted (λ a b, String.leb (sm_saved_at b) (sm_saved_at a) = true) l →
  Sorted (λ a b, String.leb (sm_saved_at b) (sm_saved_at a) = true)
    (insert_desc x l).
Proof.
  induction 1 as [|y l Hl IH Hhd]; simpl; [by repeat constructor|].
  destruct (String.leb (sm_saved_at y) (sm_saved_at x)) eqn:E.
  - constructor; [by constructor|]. by constructor.
  - constructor; [done|].
    assert (Hxy : String.leb (sm_saved_at x) (sm_saved_at y) = true).
    { destruct (String.leb_total (sm_saved_at x) (sm_saved_at y)); congruence. }
    destruct Hhd as [|z l Hz]; simpl; [by constructor|].
    destruct (String.leb (sm_saved_at z) (sm_saved_at x)); by constructor.
Qed.

Lemma sort_desc_sorted (l : list Summary) :
  Sorted (λ a b, String.leb (sm_saved_at b) (sm_saved_at a) = true)
    (sort_desc l).
Proof.
  induction l as [|x l IH]; simpl; [constructor|]. by apply insert_desc_sorted.
Qed.

Lemma Sorted_adjacent {A} (R : A → A → Prop) (l : list A) :
  Sorted R l → ∀ i a b, l !! i = Some a → l !! S i = Some b → R a b.
Proof.
  induction 1 as [|x l Hl IH Hhd]; intros i a b Ha Hb; [done|].
  destruct i as [|i]; simpl in *.
  - simplify_eq. destruct Hhd; simplify_eq/=. done.
  - eauto.
Qed.

End ListingMore.

(** X1: the listing holds exactly the summaries of the parsed files
    whose name ends in [.json], one per file: a file that does not parse
    and a file of another name are passed over without failing the call. *)
Theorem list_sessions_exact (fs : gmap string FileContent) :
  (∀ sm, sm ∈ list_sessions fs ↔
         ∃ filename data, fs !! filename = Some (Json data)
                          ∧ endswith filename ".json" = true
                          ∧ sm = summary_of filename data)
  ∧ NoDup (sm_filepath <$> list_sessions fs).
Proof.
  split; [apply list_sessions_elem|].
  unfold list_sessions. rewrite sort_desc_perm.
  apply NoDup_omap_key.
  - intros filename sm. apply list_one_filepath.
  - apply NoDup_fst_map_to_list.
Qed.

(** X2: the listing is ordered by [saved_at], newest first. *)
Theorem list_sessions_newest_first (fs : gmap string FileContent) :
  newest_first (list_sessions fs).
Proof.
  unfold newest_first, list_sessions. intros i a b Ha Hb.
  by eapply (Sorted_adjacent _ _ (sort_desc_sorted _)).
Qed.

(** X3: [delete_session] removes the file and nothing else; deleting a
    file that is not there changes nothing, so deleting twice is the
    same as deleting once; afterwards the file cannot be loaded and the
    listing has lost exactly its summary. *)
Theorem delete_session_spec (fs : gmap string FileContent) (filepath : string) :
  delete_session (delete_session fs filepath) filepath
  = delete_session fs filepath
  ∧ (fs !! filepath = None → delete_session fs filepath = fs)
  ∧ load_session (delete_session fs filepath) filepath = Raise FileNotFoundError
  ∧ (∀ other, other ≠ filepath →
              delete_session fs filepath !! other = fs !! other)
  ∧ (∀ sm, sm ∈ list_sessions (delete_session fs filepath) ↔
           sm ∈ list_sessions fs ∧ sm_filepath sm ≠ filepath).
Proof.
  assert (Hdel : delete_session fs filepath = delete filepath fs).
  { unfold delete_session. case_bool_decide as Hin; [done|].
    symmetry. apply delete_id. by apply eq_None_not_Some. }
  split_and!.
  - rewrite !Hdel. unfold delete_session.
    rewrite bool_decide_eq_false_2; [done|].
    rewrite lookup_delete_eq. by intros [? ?].
  - intros Hnone. rewrite Hdel. by apply delete_id.
  - rewrite Hdel. unfold load_session. by rewrite lookup_delete_eq.
  - intros other Hne. rewrite Hdel. by apply lookup_delete_ne.
  - intros sm. rewrite Hdel, !list_sessions_elem. split.
    + intros (filename & data & Hfile & Hjson & ->).
      apply lookup_delete_Some in Hfile as [Hne Hfile].
      split; [eauto|]. simpl. congruence.
    + intros [(filename & data & Hfile & Hjson & ->) Hne]. simpl in Hne.
      exists filename, data. split_and!; [|done..].
      apply lookup_delete_Some. split; [congruence|done].
Qed.

Section EntriesMore.

Lemma filter_all {A} (P : A → Prop) `{∀ x, Decision (P x)} (l : list A) :
  Forall P l → filter P l = l.
Proof.
  induction 1 as [|x l Hx _ IH]; [done|].
  rewrite filter_cons_True by done. by rewrite IH.
Qed.

Lemma filter_other_paths (p : string) (ws : list Entry) :
  p ∉ e_path <$> ws → filter (λ w, e_path w ≠ p) ws = ws.
Proof.
  intros Hp. apply filter_all, Forall_forall. intros w Hw Heq.
  apply Hp, list_elem_of_fmap. exists w. by split.
Qed.

Lemma filter_kept_again (p : string) (ws : list Entry) :
  filter (λ w, e_path w ≠ p) (filter (λ w, e_path w ≠ p) ws)
  = filter (λ w, e_path w ≠ p) ws.
Proof.
  apply filter_all, Forall_forall. intros w Hw.
  by apply list_elem_of_filter in Hw as [? _].
Qed.

Lemma NoDup_paths_filter (P : Entry → Prop) `{∀ x, Decision (P x)}
    (ws : list Entry) :
  NoDup (e_path <$> ws) → NoDup (e_path <$> filter P ws).
Proof.
  induction ws as [|w ws IH]; [done|].
  rewrite fmap_cons, NoDup_cons. intros [Hw Hnd].
  destruct (decide (P w)).
  - rewrite filter_cons_True by done. rewrite fmap_cons, NoDup_cons.
    split; [|by apply IH]. intros Hin. apply Hw.
    apply list_elem_of_fmap in Hin as (w' & -> & Hw').
    apply list_elem_of_filter in Hw' as [_ Hw'].
    apply list_elem_of_fmap. eauto.
  - rewrite filter_cons_False by done. by apply IH.
Qed.

Lemma existsb_path (p : string) (ws : list Entry) :
  existsb (λ window, String.eqb (e_path window) p) ws = true
  ↔ p ∈ e_path <$> ws.
Proof.
  rewrite existsb_exists, list_elem_of_fmap. split.
  - intros (w & Hin & Heq). apply String.eqb_eq in Heq.
    exists w. split; [done|]. by apply list_elem_of_In.
  - intros (w & -> & Hin). exists w. split; [by apply list_elem_of_In|].
    apply String.eqb_refl.
Qed.

Lemma set_windows_get (data : Session) (ws : list Entry) :
  get_windows (set_windows data ws) = ws.
Proof. done. Qed.

Lemma set_windows_twice (data : Session) (ws ws' : list Entry) :
  set_windows (set_windows data ws) ws' = set_windows data ws'.
Proof. done. Qed.

Lemma set_windows_same (data : Session) :
  s_windows data ≠ None → set_windows data (get_windows data) = data.
Proof. destruct data as [n t [ws|]]; [done|]. by intros []. Qed.

(** The outcomes of [add_path_to_session]. *)
Lemma add_path_to_session_Ok (fs fs' : gmap string FileContent)
    (filepath new_path : string) (rect : option (list Z))
    (show_cmd : option Z) (b : bool) :
  add_path_to_session fs filepath new_path rect show_cmd = Ok (fs', b) →
  ∃ data, fs !! filepath = Some (Json data)
    ∧ ((b = false ∧ fs' = fs ∧ new_path ∈ e_path <$> get_windows data)
       ∨ (b = true ∧ (new_path ∉ e_path <$> get_windows data)
          ∧ fs' = <[filepath :=
                     Json (set_windows data
                             (get_windows data
                              ++ [{| e_path := new_path;
                                     e_rect := default [100; 100; 1000; 600]%Z rect;
                                     e_show_cmd := default 1%Z show_cmd |}]))]> fs)).
Proof.
  unfold add_path_to_session.
  destruct (load_session fs filepath) as [data| |] eqn:Eload; [|done..].
  apply load_session_Ok in Eload. cbn [bind]. cbv zeta.
  destruct (existsb _ _) eqn:Eex; intros [= <- <-]; exists data; split; try done.
  - left. split_and!; try done. by apply existsb_path.
  - right. split_and!; try done. intros Hin. apply existsb_path in Hin.
    congruence.
Qed.

(** The outcomes of [remove_path_from_session]. *)
Lemma remove_path_from_session_Ok (fs fs' : gmap string FileContent)
    (filepath path_to_remove : string) (b : bool) :
  remove_path_from_session fs filepath path_to_remove = Ok (fs', b) →
  ∃ data, fs !! filepath = Some (Json data)
    ∧ (let kept := filter (λ w, e_path w ≠ path_to_remove) (get_windows data) in
       (b = false ∧ kept = [] ∧ fs' = delete filepath fs)
       ∨ (b = true ∧ kept ≠ []
          ∧ fs' = <[filepath := Json (set_windows data kept)]> fs)).
Proof.
  unfold remove_path_from_session.
  destruct (load_session fs filepath) as [data| |] eqn:Eload; [|done..].
  apply load_session_Ok in Eload. cbn [bind]. cbv zeta.
  destruct (filter _ _) as [|w kept] eqn:Ek; intros [= <- <-];
    exists data; split; try done.
  - left. split_and!; try done.
    unfold delete_session. rewrite bool_decide_eq_true_2; eauto.
  - right. by rewrite Ek.
Qed.

End EntriesMore.

(** X4: adding a path is idempotent: once [add_path_to_session] has
    added a path, adding it again (with any geometry) returns [False] and
    leaves the directory as the first call left it. *)
Theorem add_path_twice (fs fs1 : gmap string FileContent)
    (filepath new_path : string) (rect rect' : option (list Z))
    (show_cmd show_cmd' : option Z) :
  add_path_to_session fs filepath new_path rect show_cmd = Ok (fs1, true) →
  add_path_to_session fs1 filepath new_path rect' show_cmd' = Ok (fs1, false).
Proof.
  intros Hadd.
  apply add_path_to_session_Ok in Hadd as (data & Hfile & [(? & _)|(_ & Hnew & ->)]);
    [done|].
  unfold add_path_to_session, load_session. rewrite lookup_insert_eq.
  cbn [bind]. cbv zeta. rewrite set_windows_get.
  rewrite (proj2 (existsb_path _ _)); [done|].
  rewrite fmap_app. apply elem_of_app. right. by left.
Qed.

(** X5: removing a path twice: when the first removal leaves entries
    ([True]), the second changes nothing and returns [True] again; when
    the first removal has emptied and deleted the session ([False]), the
    second raises [FileNotFoundError]. *)
Theorem remove_path_twice (fs fs1 : gmap string FileContent)
    (filepath path_to_remove : string) (b : bool) :
  remove_path_from_session fs filepath path_to_remove = Ok (fs1, b) →
  remove_path_from_session fs1 filepath path_to_remove
  = if b then Ok (fs1, true) else Raise FileNotFoundError.
Proof.
  intros Hrem.
  apply remove_path_from_session_Ok in Hrem
    as (data & Hfile & [(-> & Hk & ->)|(-> & Hk & ->)]).
  - unfold remove_path_from_session, load_session.
    by rewrite lookup_delete_eq.
  - unfold remove_path_from_session, load_session. rewrite lookup_insert_eq.
    cbn [bind]. cbv zeta. rewrite set_windows_get, filter_kept_again.
    destruct (filter _ _) as [|w kept] eqn:Ek; [done|].
    by rewrite set_windows_twice, insert_insert_eq.
Qed.

(** X6: removing a path that no entry has: a session with entries is
    written back, and the file then holds a session with the same
    entries, name and time stamp, and the call returns [True]; a session
    without entries is deleted and the call returns [False], although
    nothing was removed. *)
Theorem remove_absent_path (fs : gmap string FileContent)
    (filepath path_to_remove : string) (data : Session) :
  fs !! filepath = Some (Json data) →
  path_to_remove ∉ e_path <$> get_windows data →
  (get_windows data ≠ [] →
     ∃ fs' data',
       remove_path_from_session fs filepath path_to_remove = Ok (fs', true)
       ∧ fs' = <[filepath := Json data']> fs
       ∧ load_session fs' filepath = Ok data'
       ∧ s_windows data' = Some (get_windows data)
       ∧ get_windows data' = get_windows data
       ∧ s_name data' = s_name data
       ∧ s_saved_at data' = s_saved_at data)
  ∧ (get_windows data = [] →
     remove_path_from_session fs filepath path_to_remove
     = Ok (delete filepath fs, false)).
Proof.
  intros Hfile Habsent.
  unfold remove_path_from_session, load_session. rewrite Hfile.
  cbn [bind]. cbv zeta. rewrite filter_other_paths by done.
  split; intros Hws.
  - destruct (get_windows data) as [|w ws] eqn:E; [done|].
    eexists _, _. split; [done|].
    split_and!; try done. by rewrite lookup_insert_eq.
  - rewrite Hws. unfold delete_session. by rewrite bool_decide_eq_true_2; eauto.
Qed.

(** X7: adding a new path and removing it again: a session that had
    entries gets back its entries, and the directory is exactly what it
    was when the file had a ["windows"] key; a session that had no entry
    is deleted by the removal. *)
Theorem add_then_remove (fs : gmap string FileContent)
    (filepath new_path : string) (rect : option (list Z))
    (show_cmd : option Z) (data : Session) :
  fs !! filepath = Some (Json data) →
  new_path ∉ e_path <$> get_windows data →
  ∃ fs1,
    add_path_to_session fs filepath new_path rect show_cmd = Ok (fs1, true)
    ∧ (get_windows data ≠ [] →
       remove_path_from_session fs1 filepath new_path
       = Ok (<[filepath := Json (set_windows data (get_windows data))]> fs, true)
       ∧ (s_windows data ≠ None →
          <[filepath := Json (set_windows data (get_windows data))]> fs = fs))
    ∧ (get_windows data = [] →
       remove_path_from_session fs1 filepath new_path
       = Ok (delete filepath fs, false)).
Proof.
  intros Hfile Hnew. eexists. split.
  { unfold add_path_to_session, load_session. rewrite Hfile. cbn [bind].
    cbv zeta. destruct (existsb _ _) eqn:E; [|done].
    by apply existsb_path in E. }
  assert (Hkept : filter (λ w, e_path w ≠ new_path)
            (get_windows data
             ++ [{| e_path := new_path;
                    e_rect := default [100; 100; 1000; 600]%Z rect;
                    e_show_cmd := default 1%Z show_cmd |}])
          = get_windows data).
  { rewrite filter_app, filter_other_paths by done.
    rewrite filter_cons_False by (simpl; auto). by rewrite app_nil_r. }
  unfold remove_path_from_session, load_session. rewrite lookup_insert_eq.
  cbn [bind]. cbv zeta. rewrite set_windows_get, Hkept. split; intros Hws.
  - split.
    + destruct (get_windows data) as [|w ws] eqn:E; [done|].
      by rewrite set_windows_twice, insert_insert_eq.
    + intros Hkey. rewrite set_windows_same by done. by apply insert_id.
  - rewrite Hws. unfold delete_session.
    rewrite bool_decide_eq_true_2 by (rewrite lookup_insert_eq; eauto).
    by rewrite delete_insert_eq.
Qed.

(** X8: a directory in which every session has pairwise distinct paths
    stays so under [save_session], [add_path_to_session],
    [remove_path_from_session] and [delete_session]; in such a directory
    every summary of the listing has [window_count = tab_count].  The
    empty directory is one. *)
Theorem store_keeps_unique_paths (cc : CharClasses)
    (fs : gmap string FileContent) :
  unique_paths ∅
  ∧ (unique_paths fs →
     (∀ shell timestamp name,
        unique_paths (save_session fs shell timestamp name).1)
     ∧ (∀ filepath new_path rect show_cmd fs' b,
          add_path_to_session fs filepath new_path rect show_cmd = Ok (fs', b) →
          unique_paths fs')
     ∧ (∀ filepath path_to_remove fs' b,
          remove_path_from_session fs filepath path_to_remove = Ok (fs', b) →
          unique_paths fs')
     ∧ (∀ filepath, unique_paths (delete_session fs filepath))
     ∧ (∀ sm, sm ∈ list_sessions fs → window_count sm = tab_count sm)).
Proof.
  split; [by intros filepath data Hfile|].
  intros Huniq.
  assert (Hins : ∀ filepath data,
            NoDup (e_path <$> get_windows data) →
            unique_paths (<[filepath := Json data]> fs)).
  { intros filepath data Hnd other data' Hother.
    apply lookup_insert_Some in Hother as [[_ [= <-]]|[_ Hother]]; [done|].
    by eapply Huniq. }
  assert (Hdel : ∀ filepath, unique_paths (delete filepath fs)).
  { intros filepath other data Hother.
    apply lookup_delete_Some in Hother as [_ Hother]. by eapply Huniq. }
  split_and!.
  - intros shell timestamp name. apply Hins, dedup_NoDup.
  - intros filepath new_path rect show_cmd fs' b Hadd.
    apply add_path_to_session_Ok in Hadd
      as (data & Hfile & [(_ & -> & _)|(_ & Hnew & ->)]); [done|].
    apply Hins. rewrite set_windows_get, fmap_app.
    apply NoDup_app. split_and!; [by eapply Huniq| |apply NoDup_singleton].
    intros p Hp Hp'. apply list_elem_of_singleton in Hp'. by subst.
  - intros filepath path_to_remove fs' b Hrem.
    apply remove_path_from_session_Ok in Hrem
      as (data & Hfile & [(_ & _ & ->)|(_ & _ & ->)]); [done|].
    apply Hins. rewrite set_windows_get.
    apply NoDup_paths_filter. by eapply Huniq.
  - intros filepath. unfold delete_session. by case_bool_decide.
  - intros sm Hsm.
    apply list_sessions_elem in Hsm as (filename & data & Hfile & _ & ->).
    simpl. rewrite size_list_to_set by by eapply Huniq.
    by rewrite length_fmap.
Qed.

(** X9: the key that [save_session] derives from a name holds only
    alphanumeric characters, spaces, hyphens and underscores, taken from
    the name in their order; it neither starts nor ends with white
    space; and sanitising a key again gives the same key. *)
Theorem safe_name_clean (cc : CharClasses) (name : string) :
  let key := String.list_ascii_of_string (safe_name name) in
  Forall (λ c, allowed c = true) key
  ∧ key `sublist_of` String.list_ascii_of_string name
  ∧ (∀ c, head key = Some c → isspace c = false)
  ∧ (∀ c, last key = Some c → isspace c = false)
  ∧ safe_name (safe_name name) = safe_name name.
Proof.
  intros key.
  set (kept := filter (λ c, allowed c = true) (String.list_ascii_of_string name)).
  set (a := lstrip isspace kept).
  assert (Hkey : key = rev (lstrip isspace (rev a))).
  { subst key a kept. unfold safe_name, strip, allowed_chars.
    by rewrite !String.list_ascii_of_string_of_list_ascii. }
  assert (Hsub : key `sublist_of` kept).
  { rewrite Hkey. apply strip_list_sublist. }
  assert (Hall : Forall (λ c, allowed c = true) key).
  { apply Forall_forall. intros c Hc.
    eapply elem_of_sublist in Hc; [|exact Hsub].
    by apply list_elem_of_filter in Hc as [? _]. }
  assert (Hhead : clean_head isspace key).
  { rewrite Hkey. apply rstrip_clean_head, lstrip_clean_head. }
  assert (Hlast : clean_head isspace (rev key)).
  { rewrite Hkey, rev_involutive. apply lstrip_clean_head. }
  split_and!.
  - done.
  - etrans; [exact Hsub|]. apply sublist_filter.
  - intros c Hc. destruct key; simplify_eq/=. done.
  - intros c Hc. rewrite <- head_rev in Hc.
    destruct (rev key); simplify_eq/=. done.
  - unfold safe_name at 1. unfold strip, allowed_chars.
    fold key. rewrite String.list_ascii_of_string_of_list_ascii.
    rewrite (filter_all _ key Hall), strip_list_fixed by done.
    apply String.string_of_list_ascii_of_string.
Qed.

(** * Further properties of the Restore Engine *)

(** X10: [_find_window_by_path] returns the handle of the first
    enumerated window that shows the path and whose handle is not
    claimed; it returns [None] exactly when every window that shows the
    path has a claimed handle.  Windows whose path or handle cannot be
    read are passed over. *)
Theorem _find_window_by_path_first (shell : list ShellWindow) (path : string)
    (used : gset Z) :
  (∀ h, _find_window_by_path shell path used = Some h →
        ∃ i w, shell !! i = Some w
               ∧ sw_folder_path w = Some path ∧ sw_hwnd w = Some h ∧ (h ∉ used)
               ∧ ∀ j w' h', j < i → shell !! j = Some w' →
                            sw_folder_path w' = Some path →
                            sw_hwnd w' = Some h' → h' ∈ used)
  ∧ (_find_window_by_path shell path used = None ↔
     ∀ w h, w ∈ shell → sw_folder_path w = Some path →
            sw_hwnd w = Some h → h ∈ used).
Proof.
  induction shell as [|w shell [IHsome IHnone]].
  { split; [done|]. split; [|done]. intros _ w h Hw. by apply elem_of_nil in Hw. }
  assert (Hskip : ∀ h,
            (∀ h0, sw_folder_path w = Some path → sw_hwnd w = Some h0 → h0 ∈ used) →
            _find_window_by_path shell path used = Some h →
            ∃ i w0, (w :: shell) !! i = Some w0
              ∧ sw_folder_path w0 = Some path ∧ sw_hwnd w0 = Some h ∧ (h ∉ used)
              ∧ ∀ j w' h', j < i → (w :: shell) !! j = Some w' →
                           sw_folder_path w' = Some path →
                           sw_hwnd w' = Some h' → h' ∈ used).
  { intros h Hw Hfind.
    destruct (IHsome h Hfind) as (i & w0 & Hi & Hp & Hh & Hfree & Hbefore).
    exists (S i), w0. split_and!; try done.
    intros [|j] w' h' Hj Hw' Hp' Hh'; simpl in Hw'.
    - simplify_eq. by apply Hw.
    - apply (Hbefore j w' h'); [lia|done..]. }
  assert (Hnone : (∀ h0, sw_folder_path w = Some path → sw_hwnd w = Some h0 →
                         h0 ∈ used) →
            (_find_window_by_path shell path used = None ↔
             ∀ w0 h, w0 ∈ w :: shell → sw_folder_path w0 = Some path →
                     sw_hwnd w0 = Some h → h ∈ used)).
  { intros Hw. rewrite IHnone. split.
    - intros Hall w0 h Hin. apply elem_of_cons in Hin as [->|Hin]; eauto.
    - intros Hall w0 h Hin. apply Hall. by right. }
  simpl.
  destruct (sw_folder_path w) as [window_path|] eqn:Ep;
    [|split; [intros h; apply Hskip|apply Hnone]; done].
  destruct (sw_hwnd w) as [hwnd|] eqn:Eh;
    [|split; [intros h; apply Hskip|apply Hnone]; done].
  case_bool_decide as Hpath; simpl;
    [|split; [intros h; apply Hskip|apply Hnone]; congruence].
  case_bool_decide as Hfree; simpl.
  - subst window_path. split.
    + intros h [= <-]. exists 0, w. split_and!; try done.
      intros j w' h' Hj. lia.
    + split; [done|]. intros Hall. destruct Hfree.
      apply (Hall w hwnd); [by left|done..].
  - split; [intros h; apply Hskip|apply Hnone]; intros h0 _ [= <-]; done.
Qed.

Section Soundness.

Variable W : World.
Variable windows : list Entry.

Lemma find_window_shown (site : Site) (path : string) (used : gset Z)
    (env : Env) (h : Z) :
  (find_window W site path used env).1 = Some h → shown_as W path h.
Proof.
  simpl. intros Hfind.
  apply _find_window_by_path_shows in Hfind as (w & Hw & Hp & Hh).
  by exists (enum_calls env), w.
Qed.

Lemma classify_sound (ws : list Entry) (st : Locals * Env) :
  (∀ e, e ∈ ws → e ∈ windows) →
  Forall (targets_entry windows) (to_open st.1) →
  Forall (matches_entry W windows) (to_restore st.1) →
  Forall (targets_entry windows) (to_open (classify W ws st).1)
  ∧ Forall (matches_entry W windows) (to_restore (classify W ws st).1).
Proof.
  revert st. induction ws as [|w ws IH]; intros [l env] Hin Ho Hr; [done|].
  unfold classify in *. simpl.
  apply IH; [by intros e He; apply Hin; right|..];
    unfold classify_step; cbn [fst snd];
    destruct (String.eqb (e_path w) "") eqn:Epath; try done;
    apply String.eqb_neq in Epath;
    destruct ((find_window W AlreadyOpen (e_path w) (used_hwnds l) env).1)
      as [hwnd|] eqn:Efind; simpl; try done.
  - apply Forall_app. split; [done|]. constructor; [|done].
    exists w. split_and!; [apply Hin; by left|done..].
  - apply Forall_app. split; [done|]. constructor; [|done].
    exists w. split_and!; [apply Hin; by left|done..|].
    by eapply find_window_shown.
Qed.

Lemma poll_round_sound (i : nat) (remaining : list (string * list Z * Z))
    (st : Locals * Env) :
  Forall (targets_entry windows) remaining →
  Forall (matches_entry W windows) (to_restore st.1) →
  Forall (targets_entry windows) (poll_round W i remaining st).1
  ∧ Forall (matches_entry W windows) (to_restore (poll_round W i remaining st).2.1).
Proof.
  revert remaining st.
  induction i as [|i IH]; intros remaining [l env] Hrem Hr; simpl; [done|].
  destruct (remaining !! i) as [[[path rect] show_cmd]|] eqn:Elook; [|done].
  cbn [fst snd].
  destruct ((find_window W Polling path (used_hwnds l) env).1)
    as [hwnd|] eqn:Efind; simpl in Efind |- *; rewrite Efind.
  - apply IH; [by apply Forall_delete|]. simpl.
    apply Forall_app. split; [done|]. constructor; [|done].
    eapply Forall_lookup_1 in Hrem; [|exact Elook].
    destruct Hrem as (e & He & Hpath & [= -> -> ->]).
    exists e. split_and!; try done.
    exact (find_window_shown Polling (e_path e) (used_hwnds l) env hwnd Efind).
  - by apply IH.
Qed.

Lemma wait_loop_sound (fuel : nat) (deadline poll_interval : Z)
    (remaining : list (string * list Z * Z)) (st : Locals * Env)
    (r : list (string * list Z * Z) * (Locals * Env)) :
  wait_loop W fuel deadline poll_interval remaining st = Ok r →
  Forall (targets_entry windows) remaining →
  Forall (matches_entry W windows) (to_restore st.1) →
  Forall (matches_entry W windows) (to_restore r.2.1).
Proof.
  revert remaining st.
  induction fuel as [|fuel IH]; intros remaining [l env] Hrun Hrem Hr.
  - destruct remaining as [|t remaining]; simpl in Hrun; [by simplify_eq|].
    destruct (_ <? _)%Z; by simplify_eq.
  - destruct remaining as [|t remaining]; [by simpl in Hrun; simplify_eq|].
    cbn [wait_loop] in Hrun.
    destruct (_ <? _)%Z; [|by simplify_eq].
    set (rem0 := t :: remaining) in *.
    set (st1 := (l, (read_clock W env).2)) in *.
    cbn [fst snd] in Hrun. fold st1 in Hrun.
    destruct (poll_round_sound (length rem0) rem0 st1 Hrem Hr) as [Hrem1 Hr1].
    destruct (poll_round W (length rem0) rem0 st1) as [rem1 [l1 env1]].
    cbn [fst snd] in *.
    destruct rem1 as [|t1 rem1]; [by eapply IH in Hrun|].
    unfold sleep in Hrun. destruct (poll_interval <? 0)%Z; [done|].
    by eapply IH in Hrun.
Qed.

End Soundness.

(** Every element of the matched set at the end of the waiting phase
    comes from an entry and from a window that showed its path. *)
Lemma match_windows_sound (W : World) (fs : gmap string FileContent)
    (filepath : string) (open_timeout poll_interval : Z) (fuel : nat)
    (data : Session) (st : Locals * Env) :
  fs !! filepath = Some (Json data) →
  match_windows W fs filepath open_timeout poll_interval fuel = Ok st →
  Forall (matches_entry W (get_windows data)) (to_restore st.1).
Proof.
  intros Hfile. unfold match_windows, load_session. rewrite Hfile.
  cbn [bind].
  destruct (classify_sound W (get_windows data) (get_windows data)
              (locals0, env0)) as [Ho1 Hr1]; [done|by constructor..|].
  set (st1 := classify W (get_windows data) (locals0, env0)) in *.
  destruct (launch_fold_spec W (to_open st1.1) st1) as (t2 & _ & _ & _ & S2 & _).
  fold (launch_all W st1) in S2.
  destruct (launch_all W st1) as [l2 env2]. cbn [fst snd] in *.
  unfold wait_for_windows. cbn [fst snd].
  destruct (to_open l2) as [|t ts] eqn:Eopen.
  { intros [= <-]. simpl. by rewrite S2. }
  destruct (wait_loop W fuel _ poll_interval (t :: ts) _) as [r| |] eqn:Eloop;
    [|done..].
  cbn [bind]. intros [= <-]. simpl. rewrite skip_all. simpl.
  eapply wait_loop_sound; [exact Eloop|..].
  - rewrite <- Eopen, S2. done.
  - simpl. by rewrite S2.
Qed.

(** X11: in a pass that returns, the geometry calls are exactly one per
    element of the matched set, in its order; each is on the handle of a
    window that showed, in some enumeration of the pass, the (non-empty)
    path of a snapshot entry, with the four-component rect of that entry
    and with [SW_MAXIMIZE], [SW_MINIMIZE] or [SW_RESTORE] according to
    its show command; [restored] is the number of calls that succeeded. *)
Theorem geometry_calls_are_the_matches (W : World)
    (fs : gmap string FileContent) (filepath : string) (data : Session)
    (open_timeout poll_interval : Z) (fuel : nat) (st : Locals * Env) :
  fs !! filepath = Some (Json data) →
  restore_run W fs filepath open_timeout poll_interval fuel = Ok st →
  geometry_calls (trace st.2) = call_of <$> to_restore st.1
  ∧ Forall (matches_entry W (get_windows data)) (to_restore st.1)
  ∧ Forall (λ m, length m.1.2 = 4) (to_restore st.1)
  ∧ Forall (λ c, c.2 ∈ [SW_MAXIMIZE; SW_MINIMIZE; SW_RESTORE])
      (geometry_calls (trace st.2))
  ∧ restored st.1 = succeeded (trace st.2).
Proof.
  intros Hfile. unfold restore_run.
  destruct (match_windows W fs filepath open_timeout poll_interval fuel)
    as [st0| |] eqn:Ematch; [|done..].
  cbn [bind]. intros Hrun.
  pose proof (match_windows_sound W _ _ _ _ _ _ _ Hfile Ematch) as Hsound.
  destruct (match_windows_spec W _ _ _ _ _ _ _ Hfile Ematch)
    as (t1 & t2 & t3 & T & F1 & F2 & F3 & _ & R0 & _).
  destruct (apply_all_spec W _ _ _ Hrun) as (_ & _ & Hsame & _).
  apply apply_all_calls in Hrun as (evs & T4 & G & R & F).
  assert (Hnone : geometry_calls (trace st0.2) = [] ∧ succeeded (trace st0.2) = 0).
  { apply no_geometry_calls. rewrite T. by_phase. }
  destruct Hnone as [Hg Hs].
  assert (Hcalls : geometry_calls (trace st.2) = call_of <$> to_restore st.1).
  { by rewrite T4, geometry_calls_app, Hg, G, Hsame. }
  split_and!.
  - exact Hcalls.
  - by rewrite Hsame.
  - by rewrite Hsame.
  - rewrite Hcalls. apply Forall_fmap, Forall_forall.
    intros [[h rect] c] _. unfold call_of, show_command. simpl.
    destruct (c =? SW_SHOWMAXIMIZED)%Z; [set_solver|].
    destruct ((c =? SW_SHOWMINIMIZED)%Z || (c =? SW_MINIMIZE)%Z); set_solver.
  - rewrite R, T4, succeeded_app, Hs, R0. lia.
Qed.

(** X12: the counts of a pass that returns are bounded by the snapshot:
    [restored] is at most the number of entries with a path, [skipped]
    is at least the number of entries without one, and the sum lies
    between the number of entries and that number plus the number of
    entries with a path (each failed launch counts its entry once
    more). *)
Theorem restore_session_count_bounds (W : World)
    (fs : gmap string FileContent) (filepath : string) (data : Session)
    (open_timeout poll_interval : Z) (fuel r s : nat) :
  fs !! filepath = Some (Json data) →
  restore_session W fs filepath open_timeout poll_interval fuel = Ok (r, s) →
  let n := length (get_windows data) in
  let m := with_path (get_windows data) in
  r ≤ m ∧ n - m ≤ s ∧ n ≤ r + s ∧ r + s ≤ n + m.
Proof.
  intros Hfile Hret n m.
  apply restore_session_run in Hret as (st & Hrun & <- & <-).
  unfold restore_run in Hrun.
  destruct (match_windows W fs filepath open_timeout poll_interval fuel)
    as [st0| |] eqn:Ematch; [|done..].
  cbn [bind] in Hrun.
  destruct (match_windows_spec W _ _ _ _ _ _ _ Hfile Ematch)
    as (t1 & t2 & t3 & _ & _ & F2 & _ & L & R0 & C0 & _).
  destruct (match_windows_partition W _ _ _ _ _ _ _ Hfile Ematch) as [Ho Hr].
  destruct (apply_all_spec W _ _ _ Hrun) as (C4 & _).
  apply apply_all_calls in Hrun as (evs & _ & G & R & _).
  assert (Hs : succeeded evs ≤ length (to_restore st0.1)).
  { etrans; [apply succeeded_le|]. by rewrite G, length_fmap. }
  assert (Hf : failed_launches t2 ≤ length (to_open st0.1)).
  { etrans; [apply failed_launches_le|].
    by rewrite <- (launched_length W t2), L, length_fmap. }
  pose proof (proj2 (proj2 (classify_counts W (get_windows data) (locals0, env0))))
    as Hm.
  fold n m in C0, Ho, Hr, Hm. lia.
Qed.

Section Expired.

Variable W : World.

Lemma apply_all_not_out_of_fuel (l : list (Z * list Z * Z))
    (st : Locals * Env) :
  apply_all W l st ≠ OutOfFuel.
Proof.
  revert st. induction l as [|[[hwnd rect] show_cmd] l IH]; intros st; [done|].
  cbn [apply_all]. unfold _apply_geometry.
  destruct rect as [|a [|b [|c [|d [|? ?]]]]]; try done.
  cbn [bind]. apply IH.
Qed.

(** The geometry loop raises [ValueError] as soon as one rect does not
    have four components. *)
Lemma apply_all_raises (l : list (Z * list Z * Z)) (st : Locals * Env) :
  Exists (λ m, length m.1.2 ≠ 4) l → apply_all W l st = Raise ValueError.
Proof.
  intros Hbad. revert st.
  induction l as [|[[hwnd rect] show_cmd] l IH]; intros st.
  { by apply Exists_nil in Hbad. }
  cbn [apply_all]. unfold _apply_geometry.
  destruct rect as [|a [|b [|c [|d [|? ?]]]]]; try done.
  cbn [bind]. apply IH.
  apply Exists_cons in Hbad as [Hbad|Hbad]; [by simpl in Hbad|done].
Qed.

(** When the first reading in the loop has reached the deadline, the
    loop ends at once, whatever the fuel. *)
Lemma wait_loop_expired (fuel : nat) (deadline poll_interval : Z)
    (remaining : list (string * list Z * Z)) (st : Locals * Env) :
  remaining ≠ [] →
  (deadline ≤ time_time W (time_calls st.2))%Z →
  wait_loop W fuel deadline poll_interval remaining st
  = Ok (remaining, (st.1, (read_clock W st.2).2)).
Proof.
  intros Hrem Hclock. destruct remaining as [|t ts]; [done|].
  destruct fuel; simpl;
    (destruct (_ <? _)%Z eqn:E; [apply Z.ltb_lt in E; lia|done]).
Qed.

Lemma wait_for_windows_expired (fuel : nat) (open_timeout poll_interval : Z)
    (st : Locals * Env) :
  time_calls st.2 = 0 →
  (open_timeout ≤ 0)%Z →
  (time_time W 0 ≤ time_time W 1)%Z →
  ∃ env' evs,
    wait_for_windows W fuel open_timeout poll_interval st
    = Ok (set_skipped (skipped st.1 + length (to_open st.1)) st.1, env')
    ∧ trace env' = trace st.2 ++ evs
    ∧ Forall (λ e, is_polling e = false ∧ is_launch e = false) evs.
Proof.
  destruct st as [l env]. cbn [fst snd]. intros Htc Hot Hclock.
  unfold wait_for_windows. cbn [fst snd].
  destruct (to_open l) as [|t ts] eqn:Eopen.
  { exists env, []. simpl. rewrite Nat.add_0_r, set_skipped_id, app_nil_r.
    by split_and!. }
  rewrite wait_loop_expired; [|done|].
  - cbn [bind fst snd]. rewrite skip_all.
    exists (read_clock W (read_clock W env).2).2,
           [EvTime (time_time W (time_calls env));
            EvTime (time_time W (S (time_calls env)))].
    split_and!; [done| |by repeat constructor].
    simpl. by rewrite <- app_assoc.
  - simpl. rewrite Htc. lia.
Qed.

End Expired.

(** X13: with [open_timeout ≤ 0] and a clock whose second reading is not
    earlier than its first, the pass never enters a polling round: its
    trace has no search from the loop and no sleep, and every entry for
    which a launch was requested is counted as skipped.  The pass ends
    whatever the fuel. *)
Theorem restore_with_expired_timeout (W : World)
    (fs : gmap string FileContent) (filepath : string) (data : Session)
    (open_timeout poll_interval : Z) (fuel : nat) :
  fs !! filepath = Some (Json data) →
  (open_timeout ≤ 0)%Z →
  (time_time W 0 ≤ time_time W 1)%Z →
  restore_run W fs filepath open_timeout poll_interval fuel ≠ OutOfFuel
  ∧ ∀ st, restore_run W fs filepath open_timeout poll_interval fuel = Ok st →
          Forall (λ e, is_polling e = false) (trace st.2)
          ∧ length (launched (trace st.2)) ≤ skipped st.1.
Proof.
  intros Hfile Hot Hclock.
  unfold restore_run, match_windows, load_session. rewrite Hfile. cbn [bind].
  destruct (classify_spec W (get_windows data) (locals0, env0))
    as (_ & _ & _ & (t1 & T1 & F1) & K1).
  set (st1 := classify W (get_windows data) (locals0, env0)) in *.
  destruct (launch_fold_spec W (to_open st1.1) st1)
    as (t2 & T2 & F2 & L2 & S2 & K2).
  fold (launch_all W st1) in T2, S2, K2.
  set (st2 := launch_all W st1) in *.
  destruct (wait_for_windows_expired W fuel open_timeout poll_interval st2)
    as (env3 & t3 & Hwait & T3 & F3); [by rewrite K2, K1|done..|].
  rewrite Hwait. cbn [bind fst snd]. split; [apply apply_all_not_out_of_fuel|].
  intros st Hrun.
  destruct (apply_all_spec W _ _ _ Hrun) as (C4 & _ & _ & (t4 & T4 & F4)).
  apply apply_all_calls in Hrun as (evs & _ & G & R & _).
  assert (Hs : succeeded evs ≤ length (to_restore st2.1)).
  { etrans; [apply succeeded_le|]. by rewrite G, length_fmap. }
  cbn [fst snd] in *. simpl in T1.
  assert (Htrace : trace st.2 = t1 ++ t2 ++ t3 ++ t4).
  { by rewrite T4, T3, T2, T1, <- !app_assoc. }
  split.
  - rewrite Htrace. repeat (apply Forall_app; split).
    + by_phase.
    + by_phase.
    + eapply Forall_impl; [exact F3|]. by intros e [? _].
    + by_phase.
  - rewrite Htrace, !launched_app.
    rewrite (launched_none t1), (launched_none t4) by by_phase.
    rewrite (launched_none t3)
      by (eapply Forall_impl; [exact F3|]; by intros e [_ ?]).
    rewrite app_nil_r. simpl. rewrite L2, length_fmap.
    rewrite S2 in C4, R, Hs. simpl in C4, R, Hs. lia.
Qed.

(** X14: a session whose entries all have an empty path (or that has no
    entry) is restored without any call to the operating system: the
    pass returns [(0, N)] for its [N] entries and its trace is empty. *)
Theorem restore_blank_session (W : World) (fs : gmap string FileContent)
    (filepath : string) (data : Session) (open_timeout poll_interval : Z)
    (fuel : nat) :
  fs !! filepath = Some (Json data) →
  Forall (λ w, e_path w = "") (get_windows data) →
  restore_session W fs filepath open_timeout poll_interval fuel
  = Ok (0, length (get_windows data))
  ∧ restore_trace W fs filepath open_timeout poll_interval fuel = Ok [].
Proof.
  intros Hfile Hblank.
  assert (Hclass : ∀ st, classify W (get_windows data) st
            = (set_skipped (skipped st.1 + length (get_windows data)) st.1,
               st.2)).
  { induction Hblank as [|w ws Hw _ IH]; intros [l env].
    - simpl. by rewrite Nat.add_0_r, set_skipped_id.
    - unfold classify in *. simpl. rewrite IH.
      unfold classify_step. rewrite Hw. simpl.
      unfold set_skipped. simpl. do 2 f_equal. lia. }
  unfold restore_trace, restore_session, restore_run, match_windows,
    load_session.
  rewrite Hfile. cbn [bind]. by rewrite Hclass.
Qed.

(** X15: once the waiting phase has ended, [restore_session] raises
    [ValueError] when some matched entry has a rect that is not of four
    components, and returns a pair of counts otherwise. *)
Theorem restore_session_value_error (W : World)
    (fs : gmap string FileContent) (filepath : string)
    (open_timeout poll_interval : Z) (fuel : nat) (st0 : Locals * Env) :
  match_windows W fs filepath open_timeout poll_interval fuel = Ok st0 →
  (Exists (λ m, length m.1.2 ≠ 4) (to_restore st0.1) →
   restore_session W fs filepath open_timeout poll_interval fuel
   = Raise ValueError)
  ∧ (Forall (λ m, length m.1.2 = 4) (to_restore st0.1) →
     ∃ r s, restore_session W fs filepath open_timeout poll_interval fuel
            = Ok (r, s)).
Proof.
  intros Hmatch. unfold restore_session, restore_run. rewrite Hmatch.
  cbn [bind]. split.
  - intros Hbad. by rewrite apply_all_raises.
  - intros Hok. destruct (apply_all_returns W _ st0 Hok) as [st Hgeo].
    rewrite Hgeo. cbn [bind]. eauto.
Qed.

Section CaptureRestore.

Lemma window_of_Some (sw : ShellWindow) (w : Window) :
  window_of sw = Some w →
  sw_folder_path sw = Some (w_path w) ∧ sw_hwnd sw = Some (w_hwnd w)
  ∧ length (w_rect w) = 4.
Proof.
  unfold window_of.
  destruct (sw_folder_path sw) as [path|]; [|done].
  destruct (sw_hwnd sw) as [hwnd|]; [|done].
  destruct (sw_placement sw) as [[c [[[l t] r] b]]|].
  - by intros [= <-].
  - destruct (sw_window_rect sw) as [[[[l t] r] b]|]; [|done]. by intros [= <-].
Qed.

(** Every captured entry is the entry of an enumerated window. *)
Lemma dedup_from_window (windows : list Window) (e : Entry) :
  e ∈ dedup_by_path windows → ∃ w, w ∈ windows ∧ e = entry_of w.
Proof.
  intros He. apply list_elem_of_lookup in He as [i Hi].
  destruct (dedup_first_seen windows) as [Hfirst _].
  destruct (Hfirst i e Hi) as (k & w & Hf & ->).
  apply list_find_Some in Hf as (Hk & _). exists w. split; [|done].
  apply list_elem_of_lookup. eauto.
Qed.

(** Every captured entry has a rect of four components and the path of
    a window of the enumeration whose handle can be read. *)
Lemma captured_entry (shell : list ShellWindow) (e : Entry) :
  e ∈ dedup_by_path (get_all_explorer_windows shell) →
  length (e_rect e) = 4
  ∧ ∃ sw h, sw ∈ shell ∧ sw_folder_path sw = Some (e_path e)
            ∧ sw_hwnd sw = Some h.
Proof.
  intros He. apply dedup_from_window in He as (w & Hw & ->).
  apply list_elem_of_omap in Hw as (sw & Hsw & Hof).
  apply window_of_Some in Hof as (Hp & Hh & Hr). split; [done|].
  exists sw, (w_hwnd w). by split_and!.
Qed.

Lemma _find_window_by_path_None (shell : list ShellWindow) (path : string)
    (used : gset Z) (w : ShellWindow) (h : Z) :
  _find_window_by_path shell path used = None →
  w ∈ shell → sw_folder_path w = Some path → sw_hwnd w = Some h → h ∈ used.
Proof.
  induction shell as [|w0 shell IH]; intros Hfind Hw Hp Hh.
  { by apply elem_of_nil in Hw. }
  simpl in Hfind. apply elem_of_cons in Hw as [<-|Hw].
  - rewrite Hp, Hh in Hfind. rewrite bool_decide_eq_true_2 in Hfind by done.
    simpl in Hfind. case_bool_decide as Hfree; [done|].
    exact Hfree.
  - apply IH; try done.
    destruct (sw_folder_path w0); [|done]. destruct (sw_hwnd w0); [|done].
    by destruct (_ && _).
Qed.

Variable W : World.
Variable shell : list ShellWindow.
Hypothesis Hstill : ∀ k, shell_windows W k = shell.
Hypothesis Hseparate : separate_handles shell.

(** On an unchanged desktop, entries with pairwise distinct paths that
    windows of the desktop show are all matched by the first loop. *)
Lemma classify_all_open (ws : list Entry) :
  ∀ (seen : list string) (st : Locals * Env),
    to_open st.1 = [] →
    (∀ h, h ∈ used_hwnds st.1 →
          ∃ w q, w ∈ shell ∧ sw_hwnd w = Some h
                 ∧ sw_folder_path w = Some q ∧ q ∈ seen) →
    NoDup (e_path <$> ws) →
    (∀ p, p ∈ e_path <$> ws → p ∉ seen) →
    (∀ e, e ∈ ws → ∃ sw h, sw ∈ shell ∧ sw_folder_path sw = Some (e_path e)
                           ∧ sw_hwnd sw = Some h) →
    to_open (classify W ws st).1 = [].
Proof.
  induction ws as [|e ws IH]; intros seen [l env] Hopen Hused Hnd Hfresh Hshown;
    [done|].
  rewrite fmap_cons in Hnd. apply NoDup_cons in Hnd as [He Hnd].
  unfold classify in *. simpl.
  assert (Hrest : ∀ e', e' ∈ ws →
            ∃ sw h, sw ∈ shell ∧ sw_folder_path sw = Some (e_path e')
                    ∧ sw_hwnd sw = Some h).
  { intros e' He'. apply Hshown. by right. }
  unfold classify_step. cbn [fst snd].
  destruct (String.eqb (e_path e) "") eqn:Epath.
  { apply (IH seen); try done.
    intros p Hp. apply Hfresh. rewrite fmap_cons. by right. }
  destruct ((find_window W AlreadyOpen (e_path e) (used_hwnds l) env).1)
    as [hwnd|] eqn:Efind.
  - apply (IH (e_path e :: seen)); simpl; try done.
    + intros h Hh. apply elem_of_union in Hh as [Hh|Hh].
      * apply elem_of_singleton in Hh as ->. simpl in Efind.
        rewrite Hstill in Efind.
        apply _find_window_by_path_shows in Efind as (w & Hw & Hp & Hhw).
        exists w, (e_path e). split_and!; try done. by left.
      * destruct (Hused h Hh) as (w & q & ? & ? & ? & ?).
        exists w, q. split_and!; try done. by right.
    + intros p Hp Hin. apply elem_of_cons in Hin as [->|Hin]; [done|].
      apply (Hfresh p); [|done]. rewrite fmap_cons. by right.
  - exfalso. simpl in Efind. rewrite Hstill in Efind.
    destruct (Hshown e) as (sw & h & Hsw & Hp & Hh); [by left|].
    pose proof (_find_window_by_path_None _ _ _ sw h Efind Hsw Hp Hh) as Hin.
    destruct (Hused h Hin) as (w' & q & Hw' & Hh' & Hq & Hseen).
    assert (q = e_path e) as -> by (by eapply (Hseparate w' sw h)).
    apply (Hfresh (e_path e)); [|done]. rewrite fmap_cons. by left.
Qed.

End CaptureRestore.

Section AllSucceed.

Variable W : World.
Hypothesis Hgui : ∀ k h rect cmd, win32gui W k h rect cmd = true.

Lemma apply_all_succeed (l : list (Z * list Z * Z)) (st st' : Locals * Env) :
  apply_all W l st = Ok st' →
  restored st'.1 = restored st.1 + length l ∧ skipped st'.1 = skipped st.1.
Proof.
  revert st. induction l as [|[[hwnd rect] show_cmd] l IH]; intros [loc env].
  { simpl. intros [= <-]. simpl. split; [lia|done]. }
  cbn [apply_all]. unfold _apply_geometry.
  destruct rect as [|a [|b [|c [|d [|? ?]]]]]; try done.
  cbn [bind fst snd]. rewrite Hgui. intros Hrun.
  apply IH in Hrun as [R S]. simpl in *. split; [lia|done].
Qed.

End AllSucceed.

(** X16: capture, then restore on the unchanged desktop.  When no two
    windows that show different folders share a handle, restoring the
    session that [save_session] has just written matches every entry
    with a path to a window that is already open: the pass returns for
    every fuel, requests no launch, reads no clock and polls nothing;
    and when every geometry call succeeds it returns the number of
    entries with a path as [restored]. *)
Theorem capture_then_restore (cc : CharClasses) (W : World)
    (fs : gmap string FileContent) (shell : list ShellWindow)
    (timestamp : Timestamp) (name : option string)
    (open_timeout poll_interval : Z) (fuel : nat) :
  (∀ k, shell_windows W k = shell) →
  separate_handles shell →
  let r := save_session fs shell timestamp name in
  let es := dedup_by_path (get_all_explorer_windows shell) in
  ∃ st, restore_run W r.1 r.2 open_timeout poll_interval fuel = Ok st
    ∧ to_open st.1 = []
    ∧ length (to_restore st.1) = with_path es
    ∧ Forall (λ e, is_launch e = false ∧ is_waiting e = false) (trace st.2)
    ∧ ((∀ k h rect cmd, win32gui W k h rect cmd = true) →
       restored st.1 = with_path es
       ∧ skipped st.1 = length es - with_path es).
Proof.
  intros Hstill Hseparate r es.
  assert (Hentry : ∀ e, e ∈ es →
            length (e_rect e) = 4
            ∧ ∃ sw h, sw ∈ shell ∧ sw_folder_path sw = Some (e_path e)
                      ∧ sw_hwnd sw = Some h).
  { intros e He. by apply captured_entry. }
  unfold restore_run, match_windows, load_session.
  subst r. unfold save_session. cbv zeta. cbn [fst snd].
  rewrite lookup_insert_eq. cbn [bind]. cbv zeta.
  change (get_windows
            (payload_of name timestamp
               (dedup_by_path (get_all_explorer_windows shell)))) with es.
  assert (Hopen : to_open (classify W es (locals0, env0)).1 = []).
  { apply (classify_all_open W shell Hstill Hseparate es []).
    - done.
    - intros h Hh. by apply elem_of_empty in Hh.
    - apply dedup_NoDup.
    - intros p _ Hp. by apply elem_of_nil in Hp.
    - intros e He. by apply Hentry. }
  destruct (classify_spec W es (locals0, env0))
    as (R1 & _ & _ & (t1 & T1 & F1) & _).
  destruct (classify_counts W es (locals0, env0)) as (S1 & C1 & B1).
  destruct (classify_rects W es (locals0, env0)) as [_ Hr1];
    [|by constructor..|].
  { apply Forall_forall. intros e He. by apply Hentry. }
  set (st1 := classify W es (locals0, env0)) in *.
  unfold launch_all. rewrite Hopen. cbn [foldl].
  unfold wait_for_windows. rewrite Hopen. cbn [bind].
  destruct (apply_all_returns W (to_restore st1.1) st1 Hr1) as [st Hgeo].
  exists st. split; [done|].
  destruct (apply_all_spec W _ _ _ Hgeo) as (_ & O & R & (t4 & T4 & F4)).
  rewrite Hopen in C1. simpl in C1, T1, S1, R1.
  split_and!.
  - by rewrite O.
  - rewrite R. lia.
  - rewrite T4, T1. apply Forall_app. split.
    + eapply Forall_impl; [exact F1|]. by intros [[]| | | |].
    + eapply Forall_impl; [exact F4|]. by intros e (? & ? & ? & ? & -> & _).
  - intros Hgui.
    destruct (apply_all_succeed W Hgui _ _ _ Hgeo) as [R' S'].
    rewrite R', S', R1, S1. lia.
Qed.



(** * The further properties at concrete inputs *)

Lemma list_sessions_exact_witness :
  summary_of "Tabs.json" tabs_session ∈ list_sessions tabs_dir.
Proof.
  apply (proj1 (list_sessions_exact tabs_dir)).
  exists "Tabs.json", tabs_session. by split_and!.
Defined.

Lemma delete_session_spec_witness :
  delete_session one_dir "Gone.json" = one_dir
  ∧ delete_session one_dir "Work.json" !! "Gone.json" = one_dir !! "Gone.json".
Proof.
  destruct (delete_session_spec one_dir "Gone.json") as (_ & Habsent & _).
  destruct (delete_session_spec one_dir "Work.json") as (_ & _ & _ & Hother & _).
  split; [by apply Habsent|by apply Hother].
Defined.

Lemma add_path_twice_witness :
  add_path_to_session
    (<["Tabs.json" :=
        Json (set_windows tabs_session
                (get_windows tabs_session
                 ++ [{| e_path := "C:\C"; e_rect := [100; 100; 1000; 600]%Z;
                        e_show_cmd := 1 |}]))]> tabs_dir)
    "Tabs.json" "C:\C" (Some [0; 0; 10; 10]%Z) (Some 3%Z)
  = Ok (<["Tabs.json" :=
           Json (set_windows tabs_session
                   (get_windows tabs_session
                    ++ [{| e_path := "C:\C"; e_rect := [100; 100; 1000; 600]%Z;
                           e_show_cmd := 1 |}]))]> tabs_dir, false).
Proof.
  apply (add_path_twice tabs_dir _ "Tabs.json" "C:\C" None _ None _).
  reflexivity.
Defined.

Lemma remove_path_twice_witness :
  remove_path_from_session
    (<["Tabs.json" := Json (set_windows tabs_session [entry "C:\B" 1])]> tabs_dir)
    "Tabs.json" "C:\A"
  = Ok (<["Tabs.json" := Json (set_windows tabs_session [entry "C:\B" 1])]>
          tabs_dir, true)
  ∧ remove_path_from_session (delete "Work.json" one_dir) "Work.json" "C:\A"
    = Raise FileNotFoundError.
Proof.
  split.
  - apply (remove_path_twice tabs_dir _ "Tabs.json" "C:\A" true). reflexivity.
  - apply (remove_path_twice one_dir _ "Work.json" "C:\A" false). reflexivity.
Defined.

Lemma remove_absent_path_witness :
  ∃ fs' data',
    remove_path_from_session tabs_dir "Tabs.json" "C:\Z" = Ok (fs', true)
    ∧ fs' = <["Tabs.json" := Json data']> tabs_dir
    ∧ load_session fs' "Tabs.json" = Ok data'
    ∧ s_windows data' = Some (get_windows tabs_session)
    ∧ get_windows data' = get_windows tabs_session
    ∧ s_name data' = s_name tabs_session
    ∧ s_saved_at data' = s_saved_at tabs_session.
Proof.
  apply (remove_absent_path tabs_dir "Tabs.json" "C:\Z" tabs_session).
  - reflexivity.
  - apply (bool_decide_unpack _). reflexivity.
  - discriminate.
Defined.

Lemma add_then_remove_witness :
  ∃ fs1,
    add_path_to_session tabs_dir "Tabs.json" "C:\Z" None None = Ok (fs1, true)
    ∧ remove_path_from_session fs1 "Tabs.json" "C:\Z"
      = Ok (<["Tabs.json" :=
               Json (set_windows tabs_session (get_windows tabs_session))]>
              tabs_dir, true)
    ∧ <["Tabs.json" :=
         Json (set_windows tabs_session (get_windows tabs_session))]> tabs_dir
      = tabs_dir.
Proof.
  destruct (add_then_remove tabs_dir "Tabs.json" "C:\Z" None None tabs_session)
    as (fs1 & Hadd & Hfull & _).
  - reflexivity.
  - apply (bool_decide_unpack _). reflexivity.
  - exists fs1. split; [done|].
    destruct Hfull as [Hrem Hsame]; [discriminate|].
    split; [done|]. by apply Hsame.
Defined.

Lemma store_keeps_unique_paths_witness :
  unique_paths (@save_session ascii_classes one_dir desktop stamp (Some "Desk")).1
  ∧ window_count (summary_of "Work.json" one_session)
    = tab_count (summary_of "Work.json" one_session).
Proof.
  assert (Hone : unique_paths one_dir).
  { intros filepath data Hfile. unfold one_dir in Hfile.
    apply lookup_singleton_Some in Hfile as [_ [= <-]].
    apply NoDup_singleton. }
  destruct (store_keeps_unique_paths ascii_classes one_dir) as [_ Hkeep].
  destruct (Hkeep Hone) as (Hsave & _ & _ & _ & Hlist).
  split; [apply Hsave|].
  apply Hlist, list_sessions_has_summary; reflexivity.
Defined.

Lemma safe_name_clean_witness :
  let key := String.list_ascii_of_string (@safe_name ascii_classes " Work: day/1? ") in
  Forall (λ c, @allowed ascii_classes c = true) key
  ∧ key `sublist_of` String.list_ascii_of_string " Work: day/1? "
  ∧ (∀ c, head key = Some c → @isspace ascii_classes c = false)
  ∧ (∀ c, last key = Some c → @isspace ascii_classes c = false)
  ∧ @safe_name ascii_classes (@safe_name ascii_classes " Work: day/1? ")
    = @safe_name ascii_classes " Work: day/1? ".
Proof. exact (safe_name_clean ascii_classes " Work: day/1? "). Defined.

Lemma _find_window_by_path_first_witness :
  ∃ i w, desktop !! i = Some w
         ∧ sw_folder_path w = Some "C:\A" ∧ sw_hwnd w = Some 303%Z
         ∧ (303%Z ∉ ({[101%Z]} : gset Z))
         ∧ ∀ j w' h', j < i → desktop !! j = Some w' →
                      sw_folder_path w' = Some "C:\A" →
                      sw_hwnd w' = Some h' → h' ∈ ({[101%Z]} : gset Z).
Proof.
  apply (proj1 (_find_window_by_path_first desktop "C:\A" {[101%Z]}) 303%Z).
  by vm_compute.
Defined.


Lemma geometry_calls_are_the_matches_witness :
  ∃ st, restore_run busy_world work_dir "Work.json" 5%Z 1%Z 10 = Ok st
        ∧ geometry_calls (trace st.2) = call_of <$> to_restore st.1
        ∧ Forall (matches_entry busy_world (get_windows work_session))
            (to_restore st.1)
        ∧ restored st.1 = succeeded (trace st.2).
Proof.
  destruct (restore_run busy_world work_dir "Work.json" 5%Z 1%Z 10)
    as [st| |] eqn:Erun.
  - exists st.
    destruct (geometry_calls_are_the_matches busy_world work_dir "Work.json"
                work_session 5%Z 1%Z 10 st eq_refl Erun)
      as (Hcalls & Hmatch & _ & _ & Hrestored).
    by split_and!.
  - by vm_compute in Erun.
  - by vm_compute in Erun.
Defined.

Lemma restore_session_count_bounds_witness :
  2 ≤ with_path (get_windows work_session)
  ∧ length (get_windows work_session) - with_path (get_windows work_session) ≤ 2
  ∧ length (get_windows work_session) ≤ 2 + 2
  ∧ 2 + 2 ≤ length (get_windows work_session)
            + with_path (get_windows work_session).
Proof.
  apply (restore_session_count_bounds busy_world work_dir "Work.json"
           work_session 5%Z 1%Z 10 2 2).
  - reflexivity.
  - by vm_compute.
Defined.

Lemma restore_with_expired_timeout_witness :
  restore_run quiet_world one_dir "Work.json" (-3)%Z 1%Z 0 ≠ OutOfFuel
  ∧ ∀ st, restore_run quiet_world one_dir "Work.json" (-3)%Z 1%Z 0 = Ok st →
          Forall (λ e, is_polling e = false) (trace st.2)
          ∧ length (launched (trace st.2)) ≤ skipped st.1.
Proof.
  apply (restore_with_expired_timeout quiet_world one_dir "Work.json"
           one_session (-3)%Z 1%Z 0).
  - reflexivity.
  - lia.
  - by vm_compute.
Defined.

Lemma restore_blank_session_witness :
  restore_session busy_world blank_dir "Work.json" 5%Z 1%Z 0
  = Ok (0, length (get_windows blank_session))
  ∧ restore_trace busy_world blank_dir "Work.json" 5%Z 1%Z 0 = Ok [].
Proof.
  apply (restore_blank_session busy_world blank_dir "Work.json" blank_session).
  - reflexivity.
  - by repeat constructor.
Defined.

Lemma restore_session_value_error_witness :
  restore_session busy_world broken_dir "Work.json" 5%Z 1%Z 10
  = Raise ValueError.
Proof.
  destruct (match_windows busy_world broken_dir "Work.json" 5%Z 1%Z 10)
    as [st0| |] eqn:Ematch.
  - apply (restore_session_value_error busy_world broken_dir "Work.json"
             5%Z 1%Z 10 st0 Ematch).
    assert (Hm : (st <- match_windows busy_world broken_dir "Work.json"
                          5%Z 1%Z 10 ;; Ok (to_restore st.1))
                 = Ok [(101, [0; 0; 800], 1)]%Z) by (by vm_compute).
    rewrite Ematch in Hm. injection Hm as ->.
    apply Exists_cons_hd. simpl. lia.
  - by vm_compute in Ematch.
  - by vm_compute in Ematch.
Defined.

Lemma separate_handles_desktop : separate_handles desktop.
Proof.
  intros w1 w2 h p1 p2 H1 H2 Hh1 Hh2 Hp1 Hp2. unfold desktop in H1, H2.
  repeat (apply elem_of_cons in H1 as [->|H1]);
    try (by apply elem_of_nil in H1);
    repeat (apply elem_of_cons in H2 as [->|H2]);
    try (by apply elem_of_nil in H2);
    simpl in *; congruence.
Qed.

Lemma capture_then_restore_witness :
  let r := @save_session ascii_classes ∅ desktop stamp (Some "Work") in
  let es := dedup_by_path (get_all_explorer_windows desktop) in
  ∃ st, restore_run (still_world desktop) r.1 r.2 5%Z 1%Z 0 = Ok st
    ∧ to_open st.1 = []
    ∧ restored st.1 = with_path es
    ∧ skipped st.1 = length es - with_path es.
Proof.
  intros r es.
  destruct (capture_then_restore ascii_classes (still_world desktop) ∅ desktop
              stamp (Some "Work") 5%Z 1%Z 0)
    as (st & Hrun & Hopen & _ & _ & Hall).
  - intros k. reflexivity.
  - apply separate_handles_desktop.
  - exists st. destruct Hall as [Hr Hs]; [by intros|]. by split_and!.
Defined.

Lemma restore_run_accounting_witness :
  ∃ st, restore_run failing_launcher one_dir "Work.json" 2%Z 1%Z 5 = Ok st
        ∧ restored st.1 + skipped st.1
          = length (get_windows one_session) + failed_launches (trace st.2).
Proof.
  destruct (restore_run failing_launcher one_dir "Work.json" 2%Z 1%Z 5)
    as [st| |] eqn:Erun.
  - exists st. split; [done|].
    by apply (restore_run_accounting failing_launcher one_dir "Work.json"
                2%Z 1%Z 5 one_session).
  - by vm_compute in Erun.
  - by vm_compute in Erun.
Defined.


